(** * Invoice digitisation prototype: currency-code sanitizer, extraction
      client and presentation state, embedded from [App.tsx] (latest revision)
      and [services/geminiService.ts].

    JavaScript numbers are IEEE 754 binary64 values; they are embedded as
    Rocq's primitive floats, whose [+], [-], [abs] and [<?] are the binary64
    operations with round-to-nearest-even, the ones the JavaScript engine
    performs.  Strings are sequences of character codes ([string]). *)

From Stdlib Require Import Floats ZArith String Ascii List Bool Lia DecimalString.
Import ListNotations.

Set Implicit Arguments.
Set Warnings "-register-all".
Local Open Scope string_scope.

(* ================================================================== *)
(** ** Strings: the regular expression and [toUpperCase]               *)
(* ================================================================== *)

Module Str.

(** A character range [lo-hi] of a character class. *)
Definition inRange (lo hi c : ascii) : bool :=
  (nat_of_ascii lo <=? nat_of_ascii c)%nat && (nat_of_ascii c <=? nat_of_ascii hi)%nat.

(** The class [[a-zA-Z]]. *)
Definition class_azAZ (c : ascii) : bool :=
  inRange "a" "z" c || inRange "A" "Z" c.

(** The class [[A-Z]]. *)
Definition class_AZ (c : ascii) : bool := inRange "A" "Z" c.

(** [^[cls]{n}$] tested on [s]: the anchors make the match cover the whole
    input ([$] without the [m] flag matches only at the very end). *)
Fixpoint testClassRepeat (cls : ascii -> bool) (n : nat) (s : string) : bool :=
  match n, s with
  | O, EmptyString => true
  | S n', String c s' => cls c && testClassRepeat cls n' s'
  | _, _ => false
  end.

(** [String.prototype.toUpperCase] on one code unit.  Only the letters
    [a]..[z] are mapped: the sanitizer calls it on strings that passed
    [^[a-zA-Z]{3}$] and nowhere else. *)
Definition upperChar (c : ascii) : ascii :=
  if inRange "a" "z" c then ascii_of_nat (nat_of_ascii c - 32) else c.

Fixpoint toUpperCase (s : string) : string :=
  match s with
  | EmptyString => EmptyString
  | String c s' => String (upperChar c) (toUpperCase s')
  end.

(** Truthiness of a string value: only the empty string is falsy. *)
Definition truthy (s : string) : bool :=
  match s with EmptyString => false | String _ _ => true end.

(** [a || b] where [a] is a string or [undefined] and [b] a string. *)
Definition orElse (a : option string) (b : string) : string :=
  match a with
  | Some s => if truthy s then s else b
  | None => b
  end.

(** [a || null]. *)
Definition orNull (a : option string) : option string :=
  match a with
  | Some s => if truthy s then Some s else None
  | None => None
  end.

End Str.

(* ================================================================== *)
(** ** [getSafeCurrencyCode]  (App.tsx, lines 15-22)                   *)
(* ================================================================== *)

(** The fixed default code. *)
Definition defaultCurrency : string := "MYR".

(** [code?: string]: [None] is [undefined].
    [if (code && /^[a-zA-Z]{3}$/.test(code)) return code.toUpperCase();
     return 'MYR';] *)
Definition getSafeCurrencyCode (code : option string) : string :=
  match code with
  | Some c =>
      if Str.truthy c && Str.testClassRepeat Str.class_azAZ 3 c
      then Str.toUpperCase c
      else defaultCurrency
  | None => defaultCurrency
  end.

(** *** The patterns, stated on character codes *)

Definition IsUpper (c : ascii) : Prop := (65 <= nat_of_ascii c <= 90)%nat.
Definition IsLower (c : ascii) : Prop := (97 <= nat_of_ascii c <= 122)%nat.
Definition IsLetter (c : ascii) : Prop := IsUpper c \/ IsLower c.

(** Exactly three characters, each satisfying [P]. *)
Definition ThreeOf (P : ascii -> Prop) (s : string) : Prop :=
  exists a b c, s = String a (String b (String c EmptyString)) /\ P a /\ P b /\ P c.

(** The input matches the three-letter alphabetic pattern. *)
Definition MatchesThreeLetters (code : option string) : Prop :=
  exists s, code = Some s /\ ThreeOf IsLetter s.

(** [u] is the upper-case form of the letter [c]. *)
Definition UpperOf (c u : ascii) : Prop :=
  IsUpper u /\ (nat_of_ascii u = nat_of_ascii c \/ nat_of_ascii u + 32 = nat_of_ascii c)%nat.

(* ================================================================== *)
(** ** Data model  (types.ts; response schema of geminiService.ts)     *)
(* ================================================================== *)

Record LineItem : Type := mkLineItem
  { description : string
  ; quantity : float
  ; unitPrice : float
  ; amount : float }.

(** [InvoiceData] as the response schema declares it (geminiService.ts,
    lines 52-79): [vendorName], [invoiceNumber], [invoiceDate], [totalAmount],
    [lineItems] and [currency] are required; [dueDate], [taxAmount] and
    [notes] may be absent, and an absent property reads as [undefined],
    embedded as [None]. *)
Record InvoiceData : Type := mkInvoiceData
  { vendorName : string
  ; invoiceNumber : string
  ; invoiceDate : string
  ; dueDate : option string
  ; totalAmount : float
  ; taxAmount : option float
  ; currency : string
  ; lineItems : list LineItem
  ; notes : option string }.

(** What [JSON.parse] returns: any JSON value. *)
Inductive JsonValue : Type :=
| JNull
| JBool (b : bool)
| JNumber (x : float)
| JString (s : string)
| JArray (items : list JsonValue)
| JObject (props : list (string * JsonValue)).

Module Json.

(** Property read [o.k] on a parsed object (keys are unique after parsing). *)
Fixpoint lookup (k : string) (props : list (string * JsonValue)) : option JsonValue :=
  match props with
  | [] => None
  | (k', v) :: rest => if String.eqb k k' then Some v else lookup k rest
  end.

Definition asString (v : JsonValue) : option string :=
  match v with JString s => Some s | _ => None end.

Definition asNumber (v : JsonValue) : option float :=
  match v with JNumber x => Some x | _ => None end.

Definition bind {A B : Type} (m : option A) (k : A -> option B) : option B :=
  match m with Some a => k a | None => None end.

(** A required property of the declared type. *)
Definition required {A : Type} (dec : JsonValue -> option A) (k : string)
    (props : list (string * JsonValue)) : option A :=
  bind (lookup k props) dec.

(** A property that may be absent, of the declared type when present. *)
Definition optional {A : Type} (dec : JsonValue -> option A) (k : string)
    (props : list (string * JsonValue)) : option (option A) :=
  match lookup k props with
  | None => Some None
  | Some v => bind (dec v) (fun a => Some (Some a))
  end.

Fixpoint all {A : Type} (dec : JsonValue -> option A) (vs : list JsonValue) : option (list A) :=
  match vs with
  | [] => Some []
  | v :: rest => bind (dec v) (fun a => bind (all dec rest) (fun l => Some (a :: l)))
  end.

Definition asArray {A : Type} (dec : JsonValue -> option A) (v : JsonValue) : option (list A) :=
  match v with JArray vs => all dec vs | _ => None end.

End Json.

Declare Scope json_scope.
Notation "x <- m ;; k" := (Json.bind m (fun x => k))
  (at level 61, m at next level, right associativity) : json_scope.

Section TypedView.
Local Open Scope json_scope.

(** The line-item shape: all four properties required. *)
Definition asLineItem (v : JsonValue) : option LineItem :=
  match v with
  | JObject o =>
      d <- Json.required Json.asString "description" o ;;
      q <- Json.required Json.asNumber "quantity" o ;;
      u <- Json.required Json.asNumber "unitPrice" o ;;
      a <- Json.required Json.asNumber "amount" o ;;
      Some (mkLineItem d q u a)
  | _ => None
  end.

(** The value read at the type [InvoiceData]: defined exactly on the values
    of the declared response shape.  The source performs no such check
    ([return data as InvoiceData] is an unchecked cast); this view is what
    the statically typed handler code assumes about its [data]. *)
Definition asInvoiceData (v : JsonValue) : option InvoiceData :=
  match v with
  | JObject o =>
      vn <- Json.required Json.asString "vendorName" o ;;
      inum <- Json.required Json.asString "invoiceNumber" o ;;
      idate <- Json.required Json.asString "invoiceDate" o ;;
      due <- Json.optional Json.asString "dueDate" o ;;
      total <- Json.required Json.asNumber "totalAmount" o ;;
      tax <- Json.optional Json.asNumber "taxAmount" o ;;
      cur <- Json.required Json.asString "currency" o ;;
      items <- Json.required (Json.asArray asLineItem) "lineItems" o ;;
      nt <- Json.optional Json.asString "notes" o ;;
      Some (mkInvoiceData vn inum idate due total tax cur items nt)
  | _ => None
  end.

End TypedView.

(** The value is of the expected structure. *)
Definition hasExpectedShape (v : JsonValue) : bool :=
  match asInvoiceData v with Some _ => true | None => false end.

(* ================================================================== *)
(** ** The platform: what the browser and the SDK do for the code      *)
(* ================================================================== *)

(** A thrown value, as the handler's [catch] tells them apart
    ([err instanceof Error]). *)
Inductive Thrown : Type :=
| ErrorInstance (message : string)
| NonError.

(** How a call ends: it returns, or it throws (a rejected promise, once
    awaited, throws). *)
Inductive Outcome (A : Type) : Type :=
| Returns (a : A)
| Throws (e : Thrown).
Arguments Returns {A} a.
Arguments Throws {A} e.

(** A [File]: its media type and what [FileReader.readAsDataURL] yields for
    it ([None] when [reader.result] is not a string). *)
Record File : Type := mkFile
  { fileName : string
  ; fileType : string
  ; fileDataURL : option string }.

Record InlineData : Type := mkInlineData
  { data : option string
  ; mimeType : string }.

(** The request of [ai.models.generateContent]: the model identifier and
    the image part.  The instruction text and the response schema are the
    same constants in every request. *)
Record Request : Type := mkRequest
  { reqModel : string
  ; reqImage : InlineData }.

Inductive LogArg : Type :=
| LogText (s : string)
| LogThrown (e : Thrown)
| LogUndefined.

(** What an invocation does to the outside, in order. *)
Inductive Event : Type :=
| CallDigitizeInvoice (f : File) (key model : string)
| GenerateContent (r : Request)
| ConsoleError (args : list LogArg).

(** The only outbound event is the model call. *)
Definition isOutbound (e : Event) : bool :=
  match e with GenerateContent _ => true | _ => false end.

Record Platform : Type := mkPlatform
  { (** [await ai.models.generateContent(...)], then [response.text]
        ([None]: the response carries no text). *)
    generateContent : Request -> Outcome (option string)
  ; (** [String.prototype.trim]. *)
    trim : string -> string
  ; (** [JSON.parse]: throws a [SyntaxError] on text that is not JSON. *)
    JSON_parse : string -> Outcome JsonValue
  ; (** The [TypeError] of reading a property of [undefined]. *)
    typeErrorUndefined : Thrown
  ; (** [Intl.NumberFormat('en-US', {style: 'currency', currency}).format]. *)
    formatCurrency : string -> float -> string
  ; (** The [RangeError] of an ill-formed currency code. *)
    rangeErrorCurrency : string -> Thrown }.

(** [new Intl.NumberFormat('en-US', { style: 'currency', currency })]:
    ECMA-402 throws a [RangeError] unless the code is well formed (three
    ASCII letters), and normalises it to upper case. *)
Definition Intl_NumberFormat (P : Platform) (code : string) : Outcome (float -> string) :=
  if Str.testClassRepeat Str.class_azAZ 3 code
  then Returns (formatCurrency P (Str.toUpperCase code))
  else Throws (rangeErrorCurrency P code).

(* ================================================================== *)
(** ** Extraction client  (services/geminiService.ts)                  *)
(* ================================================================== *)

(** [s.split(',')]. *)
Fixpoint splitComma (s : string) : list string :=
  match s with
  | EmptyString => [EmptyString]
  | String c s' =>
      if Ascii.eqb c ","
      then EmptyString :: splitComma s'
      else match splitComma s' with
           | hd :: tl => String c hd :: tl
           | [] => [String c EmptyString]
           end
  end.

(** [fileToGenerativePart]: the base64 payload is the second comma-separated
    piece of the data URL; [''] when the reader has no string result. *)
Definition fileToGenerativePart (file : File) : InlineData :=
  let base64EncodedData :=
    match fileDataURL file with
    | Some result => nth_error (splitComma result) 1
    | None => Some EmptyString
    end in
  mkInlineData base64EncodedData (fileType file).

Definition configErrorMessage : string :=
  "Gemini API key is not set. Please enter your API key.".

Definition parseErrorMessage : string :=
  "Failed to parse invoice data. The AI model returned an unexpected format.".

(** [response.text.trim()] then [JSON.parse]: the body of the [try]. *)
Definition parseResponse (P : Platform) (text : option string) : Outcome JsonValue :=
  match text with
  | None => Throws (typeErrorUndefined P)
  | Some t => JSON_parse P (trim P t)
  end.

Definition logText (text : option string) : LogArg :=
  match text with Some t => LogText t | None => LogUndefined end.

(** [digitizeInvoice(imageFile, apiKey, model)]: the events it causes and
    how it ends.  The value returned is whatever [JSON.parse] produced. *)
Definition digitizeInvoice (P : Platform) (imageFile : File) (apiKey model : string)
  : list Event * Outcome JsonValue :=
  if negb (Str.truthy apiKey) then
    ([], Throws (ErrorInstance configErrorMessage))
  else
    let imagePart := fileToGenerativePart imageFile in
    let request := mkRequest model imagePart in
    match generateContent P request with
    | Throws e => ([GenerateContent request], Throws e)
    | Returns text =>
        match parseResponse P text with
        | Returns v => ([GenerateContent request], Returns v)
        | Throws e =>
            ([ GenerateContent request
             ; ConsoleError [LogText "Error parsing JSON response from Gemini:"; LogThrown e]
             ; ConsoleError [LogText "Raw response text:"; logText text] ],
             Throws (ErrorInstance parseErrorMessage))
        end
    end.

(* ================================================================== *)
(** ** Presentation and validation layer  (App.tsx, [App])             *)
(* ================================================================== *)

(** The [useState] cells of [App]. *)
Record AppState : Type := mkAppState
  { apiKey : string
  ; selectedModel : string
  ; imageFile : option File
  ; extractedData : option InvoiceData
  ; isLoading : bool
  ; error : option string
  ; cameraActive : bool
  ; discrepancyWarning : option string
  ; aiNote : option string }.

(** The initial render. *)
Definition initialState : AppState :=
  mkAppState "" "gemini-2.5-flash" None None false None false None None.

Definition setImageFile (v : option File) (s : AppState) : AppState :=
  mkAppState (apiKey s) (selectedModel s) v (extractedData s) (isLoading s)
             (error s) (cameraActive s) (discrepancyWarning s) (aiNote s).

Definition setExtractedData (v : option InvoiceData) (s : AppState) : AppState :=
  mkAppState (apiKey s) (selectedModel s) (imageFile s) v (isLoading s)
             (error s) (cameraActive s) (discrepancyWarning s) (aiNote s).

Definition setIsLoading (v : bool) (s : AppState) : AppState :=
  mkAppState (apiKey s) (selectedModel s) (imageFile s) (extractedData s) v
             (error s) (cameraActive s) (discrepancyWarning s) (aiNote s).

Definition setError (v : option string) (s : AppState) : AppState :=
  mkAppState (apiKey s) (selectedModel s) (imageFile s) (extractedData s) (isLoading s)
             v (cameraActive s) (discrepancyWarning s) (aiNote s).

Definition setCameraActive (v : bool) (s : AppState) : AppState :=
  mkAppState (apiKey s) (selectedModel s) (imageFile s) (extractedData s) (isLoading s)
             (error s) v (discrepancyWarning s) (aiNote s).

Definition setDiscrepancyWarning (v : option string) (s : AppState) : AppState :=
  mkAppState (apiKey s) (selectedModel s) (imageFile s) (extractedData s) (isLoading s)
             (error s) (cameraActive s) v (aiNote s).

Definition setAiNote (v : option string) (s : AppState) : AppState :=
  mkAppState (apiKey s) (selectedModel s) (imageFile s) (extractedData s) (isLoading s)
             (error s) (cameraActive s) (discrepancyWarning s) v.

(** Statements in source order: [s |> f |> g] runs [f], then [g]. *)
Notation "s |> f" := (f s) (at level 45, left associativity, only parsing).

(** [handleFileSelect] (lines 442-448). *)
Definition handleFileSelect (file : File) (s : AppState) : AppState :=
  s |> setImageFile (Some file)
    |> setExtractedData None
    |> setError None
    |> setDiscrepancyWarning None
    |> setAiNote None.

(** [handleCapture] (lines 450-453). *)
Definition handleCapture (file : File) (s : AppState) : AppState :=
  s |> handleFileSelect file |> setCameraActive false.

(** [handleReset] (lines 510-521); revoking the preview URL leaves the
    state cells alone. *)
Definition handleReset (s : AppState) : AppState :=
  s |> setImageFile None
    |> setExtractedData None
    |> setError None
    |> setIsLoading false
    |> setCameraActive false
    |> setDiscrepancyWarning None
    |> setAiNote None.

Definition sentinelVendor : string := "Invalid Document".

Definition noFileMessage : string := "Please upload an invoice image first.".

Definition noKeyMessage : string :=
  "Please enter your Gemini API key before digitizing.".

Definition invalidDocumentFallback : string :=
  "The uploaded image does not appear to be a valid invoice. Please try another image.".

Definition unknownErrorMessage : string :=
  "An unknown error occurred during digitization.".

Section Reconciliation.
Local Open Scope float_scope.

(** The tolerance literal [0.01]: the binary64 value nearest to 1/100. *)
Definition tolerance : float := 0x1.47ae147ae147bp-7.

(** [ToNumber] of a number that may be [undefined]. *)
Definition toNumber (x : option float) : float :=
  match x with Some v => v | None => nan end.

(** [data.lineItems.reduce((sum, item) => sum + item.amount, 0)]. *)
Definition lineItemsTotal (items : list LineItem) : float :=
  fold_left (fun sum item => sum + amount item) items 0.

(** [lineItemsTotal + data.taxAmount]. *)
Definition calculatedTotal (d : InvoiceData) : float :=
  lineItemsTotal (lineItems d) + toNumber (taxAmount d).

(** [Math.abs(calculatedTotal - data.totalAmount)]. *)
Definition difference (d : InvoiceData) : float :=
  abs (calculatedTotal d - totalAmount d).

End Reconciliation.


(** The template literal of the warning. *)
Definition warningMessage (calculated stated : string) : string :=
  "The sum of extracted line items plus tax (" ++ calculated
  ++ ") does not match the invoice total (" ++ stated
  ++ "). Please review the extracted data.".

(** The client-side validation of totals (lines 486-497): the warning to
    set, if any.  An array is truthy, so the guard [data && data.lineItems]
    lets every [InvoiceData] through. *)
Definition validateTotals (P : Platform) (d : InvoiceData) : Outcome (option string) :=
  if PrimFloat.ltb tolerance (difference d) then
    match Intl_NumberFormat P (getSafeCurrencyCode (Some (currency d))) with
    | Returns format =>
        Returns (Some (warningMessage (format (calculatedTotal d)) (format (totalAmount d))))
    | Throws e => Throws e
    end
  else Returns None.

(** The [catch] clause (lines 499-504). *)
Definition catchClause (err : Thrown) (s : AppState) : AppState :=
  match err with
  | ErrorInstance message => s |> setError (Some message)
  | NonError => s |> setError (Some unknownErrorMessage)
  end.

(** The [try] body after the awaited call returned [d] (lines 474-497),
    with its [catch]. *)
Definition onData (P : Platform) (d : InvoiceData) (s : AppState) : AppState :=
  if String.eqb (vendorName d) sentinelVendor then
    s |> setError (Some (Str.orElse (notes d) invalidDocumentFallback))
      |> setExtractedData None
      |> setIsLoading false
  else
    let s' := s |> setExtractedData (Some d) |> setAiNote (Str.orNull (notes d)) in
    match validateTotals P d with
    | Returns (Some w) => s' |> setDiscrepancyWarning (Some w)
    | Returns None => s'
    | Throws e => s' |> catchClause e
    end.

(** The synchronous prefix up to the [await] (lines 465-469): the state
    shown while the request is in flight. *)
Definition beginDigitize (s : AppState) : AppState :=
  s |> setIsLoading true
    |> setError None
    |> setExtractedData None
    |> setDiscrepancyWarning None
    |> setAiNote None.

(** How an invocation of the handler ends.  [OffType] is the one case the
    typed code says nothing about: the call returned a value that is not of
    the shape [InvoiceData] declares. *)
Inductive Run : Type :=
| Finished (s : AppState) (log : list Event)
| OffType (v : JsonValue) (log : list Event).

(** [handleDigitize] (lines 455-508). *)
Definition handleDigitize (P : Platform) (s : AppState) : Run :=
  match imageFile s with
  | None => Finished (s |> setError (Some noFileMessage)) []
  | Some file =>
      if negb (Str.truthy (apiKey s)) then
        Finished (s |> setError (Some noKeyMessage)) []
      else
        let s1 := beginDigitize s in
        let (events, result) := digitizeInvoice P file (apiKey s) (selectedModel s) in
        let log := CallDigitizeInvoice file (apiKey s) (selectedModel s) :: events in
        match result with
        | Throws err => Finished (s1 |> catchClause err |> setIsLoading false) log
        | Returns v =>
            match asInvoiceData v with
            | Some d => Finished (s1 |> onData P d |> setIsLoading false) log
            | None => OffType v log
            end
        end
  end.

Definition eventsOf (r : Run) : list Event :=
  match r with Finished _ log => log | OffType _ log => log end.

(** An invocation in state [s] on platform [P] gets past both guards and the
    awaited call returns a value of the declared shape, read as [d]: a
    successful extraction result, sentinel or not. *)
Definition Extracts (P : Platform) (s : AppState) (d : InvoiceData) : Prop :=
  exists file events v,
    imageFile s = Some file /\
    Str.truthy (apiKey s) = true /\
    digitizeInvoice P file (apiKey s) (selectedModel s) = (events, Returns v) /\
    asInvoiceData v = Some d.

(* ================================================================== *)
(** ** Sample inputs                                                   *)
(* ================================================================== *)

Module Sample.

(** The JSON object of an [InvoiceData]. *)
Definition lineItemJson (i : LineItem) : JsonValue :=
  JObject [ ("description", JString (description i))
          ; ("quantity", JNumber (quantity i))
          ; ("unitPrice", JNumber (unitPrice i))
          ; ("amount", JNumber (amount i)) ].

Definition optionalProp {A : Type} (k : string) (enc : A -> JsonValue) (x : option A)
  : list (string * JsonValue) :=
  match x with Some a => [(k, enc a)] | None => [] end.

Definition toJson (d : InvoiceData) : JsonValue :=
  JObject ([ ("vendorName", JString (vendorName d))
           ; ("invoiceNumber", JString (invoiceNumber d))
           ; ("invoiceDate", JString (invoiceDate d)) ]
           ++ optionalProp "dueDate" JString (dueDate d)
           ++ [ ("totalAmount", JNumber (totalAmount d)) ]
           ++ optionalProp "taxAmount" JNumber (taxAmount d)
           ++ [ ("currency", JString (currency d))
              ; ("lineItems", JArray (map lineItemJson (lineItems d))) ]
           ++ optionalProp "notes" JString (notes d)).

(** Half-up rounding of [num / den] to an integer, [den > 0]. *)
Definition roundHalfUp (num den : Z) : Z := ((2 * num + den) / (2 * den))%Z.

(** The magnitude of a finite number in hundredths. *)
Definition hundredths (x : float) : option Z :=
  match Prim2SF x with
  | S754_zero _ => Some 0%Z
  | S754_finite _ m e =>
      Some (if (0 <=? e)%Z then (Zpos m * 100 * 2 ^ e)%Z
            else roundHalfUp (Zpos m * 100) (2 ^ (- e)))
  | _ => None
  end.

Definition decimal (n : Z) : string :=
  DecimalString.NilZero.string_of_uint (N.to_uint (Z.to_N n)).

(** An amount with two fraction digits, as [en-US] prints the amounts of a
    currency with two minor digits (grouping separators left out). *)
Definition fixed2 (x : float) : string :=
  match hundredths x with
  | Some h =>
      let frac := (h mod 100)%Z in
      (if PrimFloat.ltb x 0 then "-" else "")
      ++ decimal (h / 100) ++ "."
      ++ (if (frac <? 10)%Z then "0" else "") ++ decimal frac
  | None => "NaN"
  end.

(** A formatter of the [en-US] currency kind: the code, then the amount. *)
Definition codeFormat (code : string) (x : float) : string :=
  code ++ " " ++ fixed2 x.

(** A platform that answers every request with [response] and makes
    [parsed] of every text. *)
Definition scripted (response : Outcome (option string)) (parsed : Outcome JsonValue)
  : Platform :=
  mkPlatform (fun _ => response) (fun t => t) (fun _ => parsed)
             (ErrorInstance "Cannot read properties of undefined")
             codeFormat
             (fun c => ErrorInstance ("Invalid currency code : " ++ c)).

(** A platform on which the model answers with the JSON text of [d]. *)
Definition answering (d : InvoiceData) : Platform :=
  scripted (Returns (Some "<json>")) (Returns (toJson d)).

Definition png : File :=
  mkFile "invoice.png" "image/png" (Some "data:image/png;base64,iVBORw0KGgo=").

(** File chosen, key saved, nothing extracted yet. *)
Definition ready : AppState :=
  mkAppState "key-123" "gemini-2.5-flash" (Some png) None false None false None None.

Definition widget : LineItem := mkLineItem "Widget" 2 10 20.

(** The invoice of the example: one line of 20, with tax and total given. *)
Definition widgetInvoice (tax : option float) (total : float) : InvoiceData :=
  mkInvoiceData "Acme Supplies" "INV-001" "2024-05-01" None total tax "USD" [widget] None.

(** The sentinel response, with the given [notes]. *)
Definition rejected (nt : option string) : InvoiceData :=
  mkInvoiceData sentinelVendor "" "" None 0 None "USD" [] nt.

End Sample.

(* ================================================================== *)
(** ** What [App] renders  (App.tsx, lines 295-405 and 523-585)        *)
(* ================================================================== *)

(** One row of the line-items table: the quantity as it is, the two money
    columns through the currency formatter. *)
Record LineRow : Type := mkLineRow
  { rowDescription : string
  ; rowQuantity : float
  ; rowUnitPrice : string
  ; rowAmount : string }.

(** The dynamic content of the data branch of [ExtractedDataDisplay]. *)
Record DataPanel : Type := mkDataPanel
  { noteBanner : option string
  ; warningBanner : option string
  ; panelVendor : string
  ; panelInvoiceNumber : string
  ; panelInvoiceDate : string
  ; panelDueDate : string
  ; panelRows : list LineRow
  ; panelTax : option string
  ; panelTotal : string }.

(** The four things [ExtractedDataDisplay] can return. *)
Inductive View : Type :=
| SpinnerView
| ErrorView (message : string)
| PlaceholderView
| DataView (p : DataPanel).

(** [ExtractedDataDisplay] (lines 295-405).  [x && <jsx>] renders the
    element only for a truthy [x]; building the formatter may throw. *)
Definition ExtractedDataDisplay (P : Platform) (data : option InvoiceData)
    (loading : bool) (err warning note : option string) : Outcome View :=
  if loading then Returns SpinnerView
  else match Str.orNull err with
  | Some message => Returns (ErrorView message)
  | None =>
      match data with
      | None => Returns PlaceholderView
      | Some d =>
          match Intl_NumberFormat P (getSafeCurrencyCode (Some (currency d))) with
          | Throws e => Throws e
          | Returns format =>
              Returns (DataView
                (mkDataPanel
                   (Str.orNull note)
                   (Str.orNull warning)
                   (vendorName d) (invoiceNumber d) (invoiceDate d)
                   (Str.orElse (dueDate d) "N/A")
                   (map (fun item => mkLineRow (description item) (quantity item)
                                               (format (unitPrice item))
                                               (format (amount item)))
                        (lineItems d))
                   (if PrimFloat.ltb 0 (toNumber (taxAmount d))
                    then Some (format (toNumber (taxAmount d))) else None)
                   (format (totalAmount d))))
          end
      end
  end.

(** The right-hand panel of [App] (line 580). *)
Definition resultPanel (P : Platform) (s : AppState) : Outcome View :=
  ExtractedDataDisplay P (extractedData s) (isLoading s) (error s)
                       (discrepancyWarning s) (aiNote s).

(** The left-hand pane (lines 542-548): the preview of the chosen file,
    else the camera, else the upload area. *)
Inductive Pane : Type :=
| PreviewPane (f : File)
| CameraPane
| UploadPane.

Definition leftPane (s : AppState) : Pane :=
  match imageFile s with
  | Some f => PreviewPane f
  | None => if cameraActive s then CameraPane else UploadPane
  end.

(** [disabled={!imageFile || isLoading || !apiKey}] (line 553). *)
Definition digitizeDisabled (s : AppState) : bool :=
  match imageFile s with
  | None => true
  | Some _ => isLoading s || negb (Str.truthy (apiKey s))
  end.

(** [{imageFile && <button onClick={handleReset}>}] (lines 569-576). *)
Definition clearShown (s : AppState) : bool :=
  match imageFile s with Some _ => true | None => false end.

(* ================================================================== *)
(** ** [FileUploadArea]  (App.tsx, lines 114-147)                      *)
(* ================================================================== *)

(** Each handler gives the new [isDragging]; the two that may call
    [onFileSelect] also give the file they pass, if any. *)
Definition handleDragEnter (loading dragging : bool) : bool :=
  if negb loading then true else dragging.

Definition handleDragLeave (dragging : bool) : bool := false.

Definition handleDragOver (dragging : bool) : bool := dragging.

(** [if (!isLoading && files && files.length > 0) onFileSelect(files[0])]. *)
Definition handleDrop (loading : bool) (files : list File) : bool * option File :=
  (false, if negb loading then hd_error files else None).

(** [if (files && files.length > 0) onFileSelect(files[0])]. *)
Definition handleFileChange (files : list File) : option File := hd_error files.

(* ================================================================== *)
(** ** Settings: local storage, model table, [ApiKeyManager]           *)
(* ================================================================== *)

Definition API_KEY_STORAGE_KEY : string := "gemini-api-key".
Definition MODEL_STORAGE_KEY : string := "gemini-model-selection".

(** The [models] table (lines 9-13). *)
Definition models : list (string * string) :=
  [ ("gemini-2.5-pro", "Pro")
  ; ("gemini-2.5-flash", "Flash")
  ; ("gemini-flash-lite-latest", "Flash Lite") ].

(** [localStorage]: the latest [setItem] of a key is the one read. *)
Definition Storage : Type := list (string * string).

Fixpoint getItem (store : Storage) (k : string) : option string :=
  match store with
  | [] => None
  | (k', v) :: rest => if String.eqb k k' then Some v else getItem rest k
  end.

Definition setItem (k v : string) (store : Storage) : Storage := (k, v) :: store.

(** Truthiness of [models[k]]: an own entry of the table, else whatever
    the object inherits under that name ([inherited], a fact of the
    platform's [Object.prototype]). *)
Definition modelsHas (inherited : string -> bool) (k : string) : bool :=
  match getItem models k with
  | Some name => Str.truthy name
  | None => inherited k
  end.

Definition setApiKey (v : string) (s : AppState) : AppState :=
  mkAppState v (selectedModel s) (imageFile s) (extractedData s) (isLoading s)
             (error s) (cameraActive s) (discrepancyWarning s) (aiNote s).

Definition setSelectedModel (v : string) (s : AppState) : AppState :=
  mkAppState (apiKey s) v (imageFile s) (extractedData s) (isLoading s)
             (error s) (cameraActive s) (discrepancyWarning s) (aiNote s).

(** The mount effect of [App] (lines 419-428). *)
Definition mountEffect (inherited : string -> bool) (store : Storage) (s : AppState)
  : AppState :=
  let s1 :=
    match getItem store API_KEY_STORAGE_KEY with
    | Some savedApiKey => if Str.truthy savedApiKey then setApiKey savedApiKey s else s
    | None => s
    end in
  match getItem store MODEL_STORAGE_KEY with
  | Some savedModel =>
      if Str.truthy savedModel && modelsHas inherited savedModel
      then setSelectedModel savedModel s1 else s1
  | None => s1
  end.

(** [handleModelChange] (lines 430-433). *)
Definition handleModelChange (model : string) (s : AppState) (store : Storage)
  : AppState * Storage :=
  (setSelectedModel model s, setItem MODEL_STORAGE_KEY model store).

(** The state cells of [ApiKeyManager] (lines 30-32). *)
Record KeyManager : Type := mkKeyManager
  { localApiKey : string
  ; isEditing : bool
  ; saved : bool }.

(** [handleSave] (lines 34-40); the timer it starts is [savedTimeout]. *)
Definition handleSave (km : KeyManager) (s : AppState) (store : Storage)
  : KeyManager * AppState * Storage :=
  (mkKeyManager (localApiKey km) false true,
   setApiKey (localApiKey km) s,
   setItem API_KEY_STORAGE_KEY (localApiKey km) store).

(** The callback of [setTimeout(() => setSaved(false), 2000)]. *)
Definition savedTimeout (km : KeyManager) : KeyManager :=
  mkKeyManager (localApiKey km) (isEditing km) false.

(** [handleEdit] (lines 42-45). *)
Definition handleEdit (km : KeyManager) (s : AppState) : KeyManager :=
  mkKeyManager (apiKey s) true (saved km).

(** The input's [onChange] (line 65). *)
Definition typeKey (v : string) (km : KeyManager) : KeyManager :=
  mkKeyManager v (isEditing km) (saved km).

(** [if (apiKey && !isEditing)]: the summary with its Edit button is shown
    instead of the input (line 47). *)
Definition keySummaryShown (km : KeyManager) (s : AppState) : bool :=
  Str.truthy (apiKey s) && negb (isEditing km).

(** [disabled={!localApiKey}] (line 73). *)
Definition saveDisabled (km : KeyManager) : bool := negb (Str.truthy (localApiKey km)).

(* ================================================================== *)
(** ** The page as a transition system                                 *)
(* ================================================================== *)

(** An extraction call that was started and has not settled: the
    arguments [digitizeInvoice] was called with. *)
Definition Call : Type := (File * string * string)%type.

(** [handleDigitize] up to its [await]: the state it leaves and the call
    it starts, if it gets past the guards (lines 455-472). *)
Definition startDigitize (s : AppState) : AppState * option Call :=
  match imageFile s with
  | None => (s |> setError (Some noFileMessage), None)
  | Some file =>
      if negb (Str.truthy (apiKey s)) then (s |> setError (Some noKeyMessage), None)
      else (beginDigitize s, Some (file, apiKey s, selectedModel s))
  end.

(** [handleDigitize] from its [await] on (lines 472-507), run on the state
    found when the call settles: the setters overwrite whatever happened in
    between. *)
Definition settleDigitize (P : Platform) (r : Outcome InvoiceData) (s : AppState)
  : AppState :=
  match r with
  | Throws err => s |> catchClause err |> setIsLoading false
  | Returns d => s |> onData P d |> setIsLoading false
  end.

(** The awaited result at the type the handler reads it. *)
Definition typedResult (r : Outcome JsonValue) : option (Outcome InvoiceData) :=
  match r with
  | Throws e => Some (Throws e)
  | Returns v =>
      match asInvoiceData v with Some d => Some (Returns d) | None => None end
  end.

Record Ui : Type := mkUi
  { app : AppState
  ; keyManager : KeyManager
  ; storage : Storage
  ; inFlight : list Call }.

(** The page after its first render and mount effect, on a given
    [localStorage]. *)
Definition mount (inherited : string -> bool) (store : Storage) : Ui :=
  mkUi (mountEffect inherited store initialState)
       (mkKeyManager EmptyString false false) store [].

(** What can happen to the page: the user's actions on what is rendered,
    the timer, and the settling of a call in flight. *)
Inductive UiEvent : Type :=
| ChooseFile (files : list File)
| DropFiles (files : list File)
| ClickUseCamera
| Capture (f : File)
| CancelCamera
| ClickDigitize
| Settle (i : nat) (r : Outcome InvoiceData)
| ClickClear
| TypeKey (v : string)
| ClickSaveKey
| ClickEditKey
| SavedTimeout
| SelectModel (m : string).

Definition withApp (u : Ui) (s : AppState) : Ui :=
  mkUi s (keyManager u) (storage u) (inFlight u).

Definition withKeyManager (u : Ui) (km : KeyManager) : Ui :=
  mkUi (app u) km (storage u) (inFlight u).

Definition selectIfAny (f : option File) (u : Ui) : Ui :=
  match f with
  | Some file => withApp u (handleFileSelect file (app u))
  | None => u
  end.

Fixpoint removeNth {A : Type} (i : nat) (l : list A) : list A :=
  match l, i with
  | [], _ => []
  | _ :: rest, O => rest
  | x :: rest, S i' => x :: removeNth i' rest
  end.

Definition isUploadPane (s : AppState) : bool :=
  match leftPane s with UploadPane => true | _ => false end.

Definition isCameraPane (s : AppState) : bool :=
  match leftPane s with CameraPane => true | _ => false end.

(** One event on the page; [None] when the control is not rendered or is
    disabled in [u]. *)
Definition step (P : Platform) (u : Ui) (e : UiEvent) : option Ui :=
  let s := app u in
  match e with
  | ChooseFile files =>
      (* the file input of the upload area, [disabled={isLoading}] *)
      if isUploadPane s && negb (isLoading s)
      then Some (selectIfAny (handleFileChange files) u) else None
  | DropFiles files =>
      if isUploadPane s
      then Some (selectIfAny (snd (handleDrop (isLoading s) files)) u) else None
  | ClickUseCamera =>
      (* [disabled={isLoading}] *)
      if isUploadPane s && negb (isLoading s)
      then Some (withApp u (setCameraActive true s)) else None
  | Capture f =>
      (* the [toBlob] callback of a snapshot; it may arrive after the camera
         pane was left *)
      Some (withApp u (handleCapture f s))
  | CancelCamera =>
      if isCameraPane s then Some (withApp u (setCameraActive false s)) else None
  | ClickDigitize =>
      if digitizeDisabled s then None
      else match startDigitize s with
           | (s', Some call) =>
               Some (mkUi s' (keyManager u) (storage u) (inFlight u ++ [call]))
           | (s', None) => Some (withApp u s')
           end
  | Settle i r =>
      match nth_error (inFlight u) i with
      | Some _ =>
          Some (mkUi (settleDigitize P r s) (keyManager u) (storage u)
                     (removeNth i (inFlight u)))
      | None => None
      end
  | ClickClear =>
      if clearShown s then Some (withApp u (handleReset s)) else None
  | TypeKey v =>
      if keySummaryShown (keyManager u) s then None
      else Some (withKeyManager u (typeKey v (keyManager u)))
  | ClickSaveKey =>
      if keySummaryShown (keyManager u) s || saveDisabled (keyManager u) then None
      else let '(km, s', store) := handleSave (keyManager u) s (storage u) in
           Some (mkUi s' km store (inFlight u))
  | ClickEditKey =>
      if keySummaryShown (keyManager u) s
      then Some (withKeyManager u (handleEdit (keyManager u) s)) else None
  | SavedTimeout => Some (withKeyManager u (savedTimeout (keyManager u)))
  | SelectModel m =>
      (* the options of the select are the keys of [models] *)
      match getItem models m with
      | Some _ =>
          let (s', store) := handleModelChange m s (storage u) in
          Some (mkUi s' (keyManager u) store (inFlight u))
      | None => None
      end
  end.

(** A sequence of events, stopping at the first that cannot happen. *)
Fixpoint run (P : Platform) (events : list UiEvent) (u : Ui) : option Ui :=
  match events with
  | [] => Some u
  | e :: rest =>
      match step P u e with
      | Some u' => run P rest u'
      | None => None
      end
  end.

Definition isClear (e : UiEvent) : bool :=
  match e with ClickClear => true | _ => false end.

(** Events in which Clear is pressed only while nothing is loading. *)
Definition calmStep (P : Platform) (u : Ui) (e : UiEvent) : option Ui :=
  if isClear e && isLoading (app u) then None else step P u e.

Fixpoint runCalm (P : Platform) (events : list UiEvent) (u : Ui) : option Ui :=
  match events with
  | [] => Some u
  | e :: rest =>
      match calmStep P u e with
      | Some u' => runCalm P rest u'
      | None => None
      end
  end.

Definition callKey (c : Call) : string := snd (fst c).

(** What holds of the page whatever happened to it. *)
Definition PageInvariant (inherited : string -> bool) (u : Ui) : Prop :=
  (isLoading (app u) = true ->
   imageFile (app u) <> None /\ Str.truthy (apiKey (app u)) = true /\ inFlight u <> []) /\
  (cameraActive (app u) = true -> imageFile (app u) = None) /\
  (Str.truthy (apiKey (app u)) = true ->
   getItem (storage u) API_KEY_STORAGE_KEY = Some (apiKey (app u))) /\
  modelsHas inherited (selectedModel (app u)) = true /\
  Forall (fun c => Str.truthy (callKey c) = true) (inFlight u).

(** The spinner is up exactly while one call is in flight, and there is
    never a second one. *)
Definition SingleFlight (u : Ui) : Prop :=
  (isLoading (app u) = true /\ length (inFlight u) = 1%nat) \/
  (isLoading (app u) = false /\ inFlight u = []).

Definition isSaveKey (e : UiEvent) : bool :=
  match e with ClickSaveKey => true | _ => false end.

Definition isConsoleError (e : Event) : bool :=
  match e with ConsoleError _ => true | _ => false end.

(** [join(',')] of the pieces of a split. *)
Fixpoint joinComma (pieces : list string) : string :=
  match pieces with
  | [] => EmptyString
  | [p] => p
  | p :: rest => p ++ String "," (joinComma rest)
  end.

Fixpoint hasComma (s : string) : bool :=
  match s with
  | EmptyString => false
  | String c s' => Ascii.eqb c "," || hasComma s'
  end.

(** Two codes are the same up to the case of their letters. *)
Definition sameUpToCase (a b : string) : Prop :=
  Str.toUpperCase a = Str.toUpperCase b.

(** [t] is the upper-case form of the string of letters [s]. *)
Inductive UpperForm : string -> string -> Prop :=
| UpperForm_nil : UpperForm EmptyString EmptyString
| UpperForm_cons c u s t :
    UpperOf c u -> UpperForm s t -> UpperForm (String c s) (String u t).

(* ================================================================== *)
(** * Properties                                                       *)
(* ================================================================== *)

(** ** The currency-code sanitizer *)

Lemma inRange_iff lo hi c :
  Str.inRange lo hi c = true <->
  (nat_of_ascii lo <= nat_of_ascii c <= nat_of_ascii hi)%nat.
Proof.
  unfold Str.inRange.
  rewrite andb_true_iff, !Nat.leb_le. tauto.
Qed.

Lemma class_azAZ_iff c : Str.class_azAZ c = true <-> IsLetter c.
Proof.
  unfold Str.class_azAZ, IsLetter, IsUpper, IsLower.
  rewrite orb_true_iff, !inRange_iff. simpl. tauto.
Qed.

Lemma class_AZ_iff c : Str.class_AZ c = true <-> IsUpper c.
Proof. unfold Str.class_AZ, IsUpper. rewrite inRange_iff. simpl. tauto. Qed.

Lemma testClassRepeat3_iff (cls : ascii -> bool) (P : ascii -> Prop) :
  (forall c, cls c = true <-> P c) ->
  forall s, Str.testClassRepeat cls 3 s = true <-> ThreeOf P s.
Proof.
  intros Hcls s. split.
  - destruct s as [|a [|b [|c [|? ?]]]]; simpl;
      rewrite ?andb_true_iff, ?andb_false_r; try (intuition discriminate).
    intros (Ha & Hb & Hc & _). exists a, b, c.
    rewrite <- !Hcls. auto.
  - intros (a & b & c & -> & Ha & Hb & Hc). simpl.
    apply Hcls in Ha, Hb, Hc. rewrite Ha, Hb, Hc. reflexivity.
Qed.

Lemma test_azAZ_iff s :
  Str.testClassRepeat Str.class_azAZ 3 s = true <-> ThreeOf IsLetter s.
Proof. apply testClassRepeat3_iff. exact class_azAZ_iff. Qed.

Lemma test_AZ_iff s :
  Str.testClassRepeat Str.class_AZ 3 s = true <-> ThreeOf IsUpper s.
Proof. apply testClassRepeat3_iff. exact class_AZ_iff. Qed.

Lemma upperChar_UpperOf c : IsLetter c -> UpperOf c (Str.upperChar c).
Proof.
  unfold IsLetter, IsUpper, IsLower, UpperOf, IsUpper, Str.upperChar.
  intros H. destruct (Str.inRange "a" "z" c) eqn:E.
  - apply inRange_iff in E.
    change (nat_of_ascii "a") with 97%nat in E.
    change (nat_of_ascii "z") with 122%nat in E.
    rewrite nat_ascii_embedding by lia. lia.
  - apply not_true_iff_false in E. rewrite inRange_iff in E.
    change (nat_of_ascii "a") with 97%nat in E.
    change (nat_of_ascii "z") with 122%nat in E.
    lia.
Qed.

Lemma upperChar_fixes_upper c : IsUpper c -> Str.upperChar c = c.
Proof.
  unfold IsUpper, Str.upperChar. intros H.
  destruct (Str.inRange "a" "z" c) eqn:E; [|reflexivity].
  apply inRange_iff in E.
  change (nat_of_ascii "a") with 97%nat in E. lia.
Qed.

Lemma toUpperCase_three s :
  ThreeOf IsLetter s ->
  UpperForm s (Str.toUpperCase s) /\ ThreeOf IsUpper (Str.toUpperCase s).
Proof.
  intros (a & b & c & -> & Ha & Hb & Hc).
  apply upperChar_UpperOf in Ha, Hb, Hc. split.
  - simpl. repeat (constructor; trivial).
  - exists (Str.upperChar a), (Str.upperChar b), (Str.upperChar c).
    simpl. repeat split; first [apply Ha | apply Hb | apply Hc].
Qed.

Lemma toUpperCase_fixes_upper s : ThreeOf IsUpper s -> Str.toUpperCase s = s.
Proof.
  intros (a & b & c & -> & Ha & Hb & Hc). simpl.
  rewrite !upperChar_fixes_upper by assumption. reflexivity.
Qed.

Lemma ThreeOf_upper_letters s : ThreeOf IsUpper s -> ThreeOf IsLetter s.
Proof.
  intros (a & b & c & E & Ha & Hb & Hc). exists a, b, c.
  unfold IsLetter. auto.
Qed.

Lemma defaultCurrency_upper : ThreeOf IsUpper defaultCurrency.
Proof.
  exists "M"%char, "Y"%char, "R"%char. unfold IsUpper.
  repeat split; try reflexivity; apply Nat.leb_le; reflexivity.
Qed.

Lemma getSafeCurrencyCode_match s :
  ThreeOf IsLetter s -> getSafeCurrencyCode (Some s) = Str.toUpperCase s.
Proof.
  intros H. unfold getSafeCurrencyCode.
  assert (Str.testClassRepeat Str.class_azAZ 3 s = true) as ->
    by (apply test_azAZ_iff; exact H).
  destruct H as (a & b & c & -> & _). reflexivity.
Qed.

Lemma getSafeCurrencyCode_nomatch code :
  ~ MatchesThreeLetters code -> getSafeCurrencyCode code = defaultCurrency.
Proof.
  intros H. destruct code as [s|]; [|reflexivity].
  unfold getSafeCurrencyCode.
  destruct (Str.testClassRepeat Str.class_azAZ 3 s) eqn:E.
  - exfalso. apply H. exists s. split; [reflexivity|].
    apply test_azAZ_iff. exact E.
  - rewrite andb_false_r. reflexivity.
Qed.

Lemma getSafeCurrencyCode_upper code : ThreeOf IsUpper (getSafeCurrencyCode code).
Proof.
  destruct code as [s|]; [|apply defaultCurrency_upper].
  unfold getSafeCurrencyCode.
  destruct (Str.testClassRepeat Str.class_azAZ 3 s) eqn:E.
  - apply test_azAZ_iff in E.
    destruct (Str.truthy s); [|apply defaultCurrency_upper].
    apply toUpperCase_three. exact E.
  - rewrite andb_false_r. apply defaultCurrency_upper.
Qed.

(** The formatter built on a sanitized code is always constructed, and it
    formats in that very code. *)
Lemma Intl_NumberFormat_safe P code :
  Intl_NumberFormat P (getSafeCurrencyCode code)
  = Returns (formatCurrency P (getSafeCurrencyCode code)).
Proof.
  pose proof (getSafeCurrencyCode_upper code) as U.
  unfold Intl_NumberFormat.
  assert (Str.testClassRepeat Str.class_azAZ 3 (getSafeCurrencyCode code) = true) as ->.
  { apply test_azAZ_iff.
    apply ThreeOf_upper_letters. exact U. }
  rewrite toUpperCase_fixes_upper by exact U. reflexivity.
Qed.

(** ** Sample inputs behave as described *)

Example getSafeCurrencyCode_samples :
  getSafeCurrencyCode (Some "usd") = "USD" /\
  getSafeCurrencyCode (Some "Eur") = "EUR" /\
  getSafeCurrencyCode (Some "MYR") = "MYR" /\
  getSafeCurrencyCode (Some "US") = "MYR" /\
  getSafeCurrencyCode (Some "US$") = "MYR" /\
  getSafeCurrencyCode (Some "euro") = "MYR" /\
  getSafeCurrencyCode (Some EmptyString) = "MYR" /\
  getSafeCurrencyCode None = "MYR".
Proof. repeat split. Qed.

Set Warnings "-inexact-float".

(** The literal [0.01] denotes [tolerance]. *)
Example tolerance_literal : tolerance = 0.01%float.
Proof. reflexivity. Qed.

(** In binary64 [0.1 + 0.2] is not [0.3]; the difference stays far below
    the tolerance. *)
Example tenth_plus_fifth :
  (0.1 + 0.2 =? 0.3)%float = false /\
  (tolerance <? abs (0.1 + 0.2 - 0.3))%float = false.
Proof. split; reflexivity. Qed.

Set Warnings "+inexact-float".

Example splitComma_samples :
  splitComma "data:image/png;base64,AAAA" = ["data:image/png;base64"; "AAAA"] /\
  splitComma "AAAA" = ["AAAA"] /\
  splitComma EmptyString = [EmptyString].
Proof. repeat split. Qed.

Example fixed2_samples :
  Sample.fixed2 21.5 = "21.50" /\ Sample.fixed2 25 = "25.00" /\
  Sample.fixed2 0x1.47ae147ae147bp-7 = "0.01" /\ Sample.fixed2 (-3.125) = "-3.13".
Proof. vm_compute. repeat split. Qed.

Lemma all_lineItemJson items :
  Json.all asLineItem (map Sample.lineItemJson items) = Some items.
Proof.
  induction items as [|i items IH]; [reflexivity|].
  cbn [map Json.all]. rewrite IH. destruct i. reflexivity.
Qed.

(** The typed view reads back the JSON object of any [InvoiceData]. *)
Lemma asInvoiceData_toJson d : asInvoiceData (Sample.toJson d) = Some d.
Proof.
  destruct d as [vn inum idate due total tax cur items nt].
  pose proof (all_lineItemJson items) as A.
  destruct due, tax, nt; cbn; cbn in A; rewrite A; reflexivity.
Qed.

Lemma Extracts_answering d s file :
  imageFile s = Some file ->
  Str.truthy (apiKey s) = true ->
  Extracts (Sample.answering d) s d.
Proof.
  intros Hf Hk. exists file.
  unfold digitizeInvoice. rewrite Hk. cbn.
  eexists _, _. repeat split; try eassumption.
  apply asInvoiceData_toJson.
Qed.

(** With a credential the client makes exactly one outbound call, however
    the call ends. *)
Lemma digitizeInvoice_one_call P file key model :
  Str.truthy key = true ->
  length (filter isOutbound (fst (digitizeInvoice P file key model))) = 1%nat.
Proof.
  intros Hk. unfold digitizeInvoice. rewrite Hk. cbn [negb].
  destruct (generateContent P _) as [text|e]; [|reflexivity].
  destruct (parseResponse P text); reflexivity.
Qed.

(** On a concrete platform and state [Extracts] is settled by running the
    client. *)
Ltac extracts_by_running :=
  exists Sample.png; do 2 eexists; repeat split; reflexivity.

(** ** Binary64 facts used below *)

Lemma ltb_nan_r x : PrimFloat.ltb x nan = false.
Proof.
  rewrite ltb_spec. change (Prim2SF nan) with S754_nan.
  unfold SFltb. destruct (Prim2SF x); reflexivity.
Qed.

Lemma add_nan_r x : PrimFloat.add x nan = nan.
Proof.
  apply Prim2SF_inj. rewrite add_spec. change (Prim2SF nan) with S754_nan.
  destruct (Prim2SF x); reflexivity.
Qed.

Lemma sub_nan_l y : PrimFloat.sub nan y = nan.
Proof.
  apply Prim2SF_inj. rewrite sub_spec. change (Prim2SF nan) with S754_nan.
  reflexivity.
Qed.

(** Without a tax amount the difference is not a number. *)
Lemma difference_without_tax d : taxAmount d = None -> difference d = nan.
Proof.
  intros H. unfold difference, calculatedTotal. rewrite H. cbn [toNumber].
  rewrite add_nan_r, sub_nan_l. reflexivity.
Qed.

(** ** The handler, case by case *)

Lemma handleDigitize_no_file P s :
  imageFile s = None ->
  handleDigitize P s = Finished (setError (Some noFileMessage) s) [].
Proof. intros H. unfold handleDigitize. rewrite H. reflexivity. Qed.

Lemma handleDigitize_no_key P s file :
  imageFile s = Some file ->
  Str.truthy (apiKey s) = false ->
  handleDigitize P s = Finished (setError (Some noKeyMessage) s) [].
Proof. intros Hf Hk. unfold handleDigitize. rewrite Hf, Hk. reflexivity. Qed.

Lemma handleDigitize_throws P s file events err :
  imageFile s = Some file ->
  Str.truthy (apiKey s) = true ->
  digitizeInvoice P file (apiKey s) (selectedModel s) = (events, Throws err) ->
  handleDigitize P s
  = Finished (setIsLoading false (catchClause err (beginDigitize s)))
             (CallDigitizeInvoice file (apiKey s) (selectedModel s) :: events).
Proof.
  intros Hf Hk Hd. unfold handleDigitize. rewrite Hf, Hk, Hd. reflexivity.
Qed.

Lemma handleDigitize_returns P s file events v d :
  imageFile s = Some file ->
  Str.truthy (apiKey s) = true ->
  digitizeInvoice P file (apiKey s) (selectedModel s) = (events, Returns v) ->
  asInvoiceData v = Some d ->
  handleDigitize P s
  = Finished (setIsLoading false (onData P d (beginDigitize s)))
             (CallDigitizeInvoice file (apiKey s) (selectedModel s) :: events).
Proof.
  intros Hf Hk Hd Hv. unfold handleDigitize. rewrite Hf, Hk, Hd. cbn.
  rewrite Hv. reflexivity.
Qed.

Lemma handleDigitize_extracts P s d :
  Extracts P s d ->
  exists log,
    handleDigitize P s = Finished (setIsLoading false (onData P d (beginDigitize s))) log.
Proof.
  intros (file & events & v & Hf & Hk & Hd & Hv).
  eexists. eapply handleDigitize_returns; eassumption.
Qed.

(** The validation step never throws: the formatter is built on a
    sanitized code. *)
Lemma validateTotals_eq P d :
  validateTotals P d =
  Returns (if PrimFloat.ltb tolerance (difference d)
           then Some (warningMessage
                        (formatCurrency P (getSafeCurrencyCode (Some (currency d)))
                                        (calculatedTotal d))
                        (formatCurrency P (getSafeCurrencyCode (Some (currency d)))
                                        (totalAmount d)))
           else None).
Proof.
  unfold validateTotals. rewrite Intl_NumberFormat_safe.
  destruct (PrimFloat.ltb tolerance (difference d)); reflexivity.
Qed.

(** What the non-sentinel path leaves behind. *)
Lemma onData_result P d s :
  String.eqb (vendorName d) sentinelVendor = false ->
  onData P d s =
  setDiscrepancyWarning
    (if PrimFloat.ltb tolerance (difference d)
     then Some (warningMessage
                  (formatCurrency P (getSafeCurrencyCode (Some (currency d)))
                                  (calculatedTotal d))
                  (formatCurrency P (getSafeCurrencyCode (Some (currency d)))
                                  (totalAmount d)))
     else discrepancyWarning s)
    (setAiNote (Str.orNull (notes d)) (setExtractedData (Some d) s)).
Proof.
  intros H. unfold onData. rewrite H, validateTotals_eq.
  destruct (PrimFloat.ltb tolerance (difference d)); reflexivity.
Qed.

(* ================================================================== *)
(** * The specification's claims                                       *)
(* ================================================================== *)

(** C5.  Whatever input does not match the three-letter alphabetic pattern
    ([undefined] included) is answered with the fixed default code [MYR].
    The sanitizer is a total function, so nothing is raised; the answer is
    three capital letters, and the currency formatter built on it is
    constructed (no [RangeError]) and formats in [MYR]. *)
Theorem C5_sanitizer_falls_back_to_default (code : option string) :
  ~ MatchesThreeLetters code ->
  getSafeCurrencyCode code = defaultCurrency /\
  ThreeOf IsUpper (getSafeCurrencyCode code) /\
  forall P, Intl_NumberFormat P (getSafeCurrencyCode code)
            = Returns (formatCurrency P defaultCurrency).
Proof.
  intros H. pose proof (getSafeCurrencyCode_nomatch H) as E.
  split; [exact E|]. split; [apply getSafeCurrencyCode_upper|].
  intros P. rewrite Intl_NumberFormat_safe, E. reflexivity.
Qed.

Lemma C5_witness_four_letters :
  ~ MatchesThreeLetters (Some "euro") /\
  getSafeCurrencyCode (Some "euro") = "MYR".
Proof.
  assert (~ MatchesThreeLetters (Some "euro")) as N.
  { intros (s & E & a & b & c & Es & _). injection E as <-. discriminate Es. }
  split; [exact N|].
  exact (proj1 (C5_sanitizer_falls_back_to_default N)).
Defined.

(** C9.  A string of exactly three ASCII letters, in any case, is answered
    with its upper-case form ([usd] gives [USD]); and whatever the input,
    the answer matches [^[A-Z]{3}$]. *)
Theorem C9_sanitizer_uppercases_and_is_well_formed :
  (forall s, ThreeOf IsLetter s -> UpperForm s (getSafeCurrencyCode (Some s))) /\
  getSafeCurrencyCode (Some "usd") = "USD" /\
  (forall code, ThreeOf IsUpper (getSafeCurrencyCode code)) /\
  (forall code, Str.testClassRepeat Str.class_AZ 3 (getSafeCurrencyCode code) = true).
Proof.
  split; [|split; [reflexivity|split]].
  - intros s H. rewrite (getSafeCurrencyCode_match H).
    apply toUpperCase_three. exact H.
  - exact getSafeCurrencyCode_upper.
  - intros code. apply test_AZ_iff.
    apply getSafeCurrencyCode_upper.
Qed.

(** C6.  Selecting a file, in any state, records the file and resets the
    result, the error, the AI note and the warning to [null]; it starts
    nothing (the loading flag, the key, the model and the camera flag are
    left as they were), so an extraction begun afterwards starts from the
    cleared state. *)
Theorem C6_file_select_clears_derived_state (file : File) (s : AppState) :
  let s' := handleFileSelect file s in
  imageFile s' = Some file /\
  extractedData s' = None /\
  error s' = None /\
  aiNote s' = None /\
  discrepancyWarning s' = None /\
  isLoading s' = isLoading s /\
  apiKey s' = apiKey s /\
  selectedModel s' = selectedModel s /\
  cameraActive s' = cameraActive s.
Proof. cbn. repeat split. Qed.

(** C4.  With no selected file, or with an empty credential, the handler
    only sets a local error message: it ends with an empty event log, so
    [digitizeInvoice] is not invoked and nothing goes out, and every other
    state cell is left alone.  [digitizeInvoice] itself, given an empty
    credential, throws the configuration error with an empty event log. *)
Theorem C4_guards_fail_locally (P : Platform) (s : AppState) :
  imageFile s = None \/ apiKey s = EmptyString ->
  (exists message,
      handleDigitize P s = Finished (setError (Some message) s) [] /\
      (message = noFileMessage \/ message = noKeyMessage)) /\
  eventsOf (handleDigitize P s) = [] /\
  (forall file model,
      digitizeInvoice P file EmptyString model
      = ([], Throws (ErrorInstance configErrorMessage))).
Proof.
  intros H.
  assert (exists message,
      handleDigitize P s = Finished (setError (Some message) s) [] /\
      (message = noFileMessage \/ message = noKeyMessage)) as G.
  { destruct (imageFile s) as [file|] eqn:Hf.
    - destruct H as [H|H]; [discriminate|].
      exists noKeyMessage. split; [|now right].
      apply (handleDigitize_no_key P s Hf). rewrite H. reflexivity.
    - exists noFileMessage. split; [|now left].
      apply handleDigitize_no_file. exact Hf. }
  split; [exact G|]. split.
  - destruct G as (m & -> & _). reflexivity.
  - reflexivity.
Qed.

Lemma C4_witness_initial_state :
  (imageFile initialState = None \/ apiKey initialState = EmptyString) /\
  eventsOf (handleDigitize (Sample.scripted (Returns None) (Returns JNull)) initialState) = [].
Proof.
  split; [left; reflexivity|].
  apply (C4_guards_fail_locally
           (Sample.scripted (Returns None) (Returns JNull)) initialState).
  left. reflexivity.
Defined.


Lemma not_sentinel d :
  vendorName d <> sentinelVendor -> String.eqb (vendorName d) sentinelVendor = false.
Proof. intros H. apply String.eqb_neq. exact H. Qed.




Set Warnings "-inexact-float".


Set Warnings "+inexact-float".


Lemma append_assoc3 (a b c : string) : (a ++ b) ++ c = a ++ (b ++ c).
Proof. induction a as [|x a IH]; cbn; [reflexivity|]. rewrite IH. reflexivity. Qed.

(** C7.  For [lineItems = [{Widget, 2, 10, 20}]] and [taxAmount = 1.5]:
    with [totalAmount = 21.5] the difference is 0 and no warning is set;
    with [totalAmount = 25] the warning is set, and its text is the template
    filled with the platform's formatting of the computed total 21.5 and of
    the stated total 25, so that where the formatter prints them as [21.50]
    and [25.00] after a currency prefix, the text quotes exactly those. *)
Theorem C7_widget_example (P : Platform) (s : AppState) (d : InvoiceData) :
  Extracts P s d ->
  vendorName d <> sentinelVendor ->
  lineItems d = [mkLineItem "Widget" 2 10 20] ->
  taxAmount d = Some 1.5%float ->
  let format := formatCurrency P (getSafeCurrencyCode (Some (currency d))) in
  (totalAmount d = 21.5%float ->
   exists s' log,
     handleDigitize P s = Finished s' log /\
     difference d = 0%float /\
     discrepancyWarning s' = None) /\
  (totalAmount d = 25%float ->
   exists s' log,
     handleDigitize P s = Finished s' log /\
     calculatedTotal d = 21.5%float /\
     discrepancyWarning s' = Some (warningMessage (format 21.5%float) (format 25%float)) /\
     forall prefix,
       format 21.5%float = prefix ++ "21.50" ->
       format 25%float = prefix ++ "25.00" ->
       discrepancyWarning s'
       = Some ("The sum of extracted line items plus tax (" ++ prefix
               ++ "21.50) does not match the invoice total (" ++ prefix
               ++ "25.00). Please review the extracted data.")).
Proof.
  intros HE Hv Hitems Htax format.
  destruct (handleDigitize_extracts HE) as [log Hrun].
  assert (calculatedTotal d = 21.5%float) as Hc.
  { unfold calculatedTotal. rewrite Hitems, Htax. reflexivity. }
  split; intros Htotal;
    exists (setIsLoading false (onData P d (beginDigitize s))), log;
    (split; [exact Hrun|]);
    rewrite (onData_result P d _ (not_sentinel d Hv));
    unfold difference; rewrite Hc, Htotal.
  - split; reflexivity.
  - split; [reflexivity|].
    change (tolerance <? abs (21.5 - 25))%float with true.
    cbn [discrepancyWarning setIsLoading setDiscrepancyWarning].
    split; [reflexivity|].
    intros prefix H1 H2. fold format. rewrite H1, H2.
    unfold warningMessage. rewrite !append_assoc3. reflexivity.
Qed.

Lemma C7_witness_reference_formatter :
  exists s' log,
    handleDigitize (Sample.answering (Sample.widgetInvoice (Some 1.5%float) 25%float))
                   Sample.ready = Finished s' log /\
    discrepancyWarning s'
    = Some ("The sum of extracted line items plus tax (USD 21.50) does not match "
            ++ "the invoice total (USD 25.00). Please review the extracted data.").
Proof.
  destruct (@C7_widget_example
              (Sample.answering (Sample.widgetInvoice (Some 1.5%float) 25%float))
              Sample.ready
              (Sample.widgetInvoice (Some 1.5%float) 25%float))
    as (_ & H).
  - extracts_by_running.
  - discriminate.
  - reflexivity.
  - reflexivity.
  - destruct (H eq_refl) as (s' & log & Hrun & _ & _ & Hmsg).
    exists s', log. split; [exact Hrun|].
    apply (Hmsg "USD "); vm_compute; reflexivity.
Defined.

Lemma onData_sentinel P d s :
  vendorName d = sentinelVendor ->
  onData P d s =
  setIsLoading false
    (setExtractedData None
       (setError (Some (Str.orElse (notes d) invalidDocumentFallback)) s)).
Proof.
  intros H. unfold onData. rewrite H, String.eqb_refl. reflexivity.
Qed.

(** C2 as stated fails where the sentinel response carries an empty
    [notes]: the field is present, but [data.notes || fallback] takes the
    fallback, so the error is the fallback message and not that field. *)
Lemma C2_counterexample_empty_notes :
  Extracts (Sample.answering (Sample.rejected (Some EmptyString))) Sample.ready
           (Sample.rejected (Some EmptyString)) /\
  vendorName (Sample.rejected (Some EmptyString)) = sentinelVendor /\
  notes (Sample.rejected (Some EmptyString)) = Some EmptyString /\
  exists s' log,
    handleDigitize (Sample.answering (Sample.rejected (Some EmptyString))) Sample.ready
    = Finished s' log /\
    error s' = Some invalidDocumentFallback /\
    error s' <> notes (Sample.rejected (Some EmptyString)).
Proof.
  split; [extracts_by_running|].
  split; [reflexivity|]. split; [reflexivity|].
  eexists _, _. split; [vm_compute; reflexivity|].
  split; [reflexivity|]. cbn. discriminate.
Qed.

(** C2 (amended).  For a response whose [vendorName] is the sentinel, the
    handler ends with no result ([extractedData] is [null]), no discrepancy
    warning, no AI note and the loading flag down, and with the error set to
    the response's [notes] when that field is present and not empty, and to
    the fixed fallback message when it is absent or empty. *)
Theorem C2_sentinel_is_an_error (P : Platform) (s : AppState) (d : InvoiceData) :
  Extracts P s d ->
  vendorName d = sentinelVendor ->
  exists s' log,
    handleDigitize P s = Finished s' log /\
    extractedData s' = None /\
    discrepancyWarning s' = None /\
    aiNote s' = None /\
    isLoading s' = false /\
    (forall n, notes d = Some n -> n <> EmptyString -> error s' = Some n) /\
    (notes d = None \/ notes d = Some EmptyString ->
     error s' = Some invalidDocumentFallback).
Proof.
  intros HE Hv.
  destruct (handleDigitize_extracts HE) as [log Hrun].
  exists (setIsLoading false (onData P d (beginDigitize s))), log.
  split; [exact Hrun|].
  rewrite (onData_sentinel P d _ Hv). cbn.
  repeat (split; [reflexivity|]). split.
  - intros n Hn Hne. rewrite Hn. destruct n; [congruence|reflexivity].
  - intros [Hn|Hn]; rewrite Hn; reflexivity.
Qed.

Lemma C2_witness_sentinel_with_notes :
  exists s' log,
    handleDigitize (Sample.answering (Sample.rejected (Some "This is a photo of a cat.")))
                   Sample.ready = Finished s' log /\
    extractedData s' = None /\
    error s' = Some "This is a photo of a cat.".
Proof.
  destruct (@C2_sentinel_is_an_error
              (Sample.answering (Sample.rejected (Some "This is a photo of a cat.")))
              Sample.ready
              (Sample.rejected (Some "This is a photo of a cat.")))
    as (s' & log & Hrun & Hdata & _ & _ & _ & Hnotes & _).
  - extracts_by_running.
  - reflexivity.
  - exists s', log. split; [exact Hrun|]. split; [exact Hdata|].
    apply Hnotes; [reflexivity|discriminate].
Defined.

(** C3 as stated fails: one line of 20, no [taxAmount], [totalAmount] 25.
    With the tax taken as 0 the difference is 5 and a warning is due, but the
    handler sets none. *)
Lemma C3_counterexample_missing_tax :
  Extracts (Sample.answering (Sample.widgetInvoice None 25%float)) Sample.ready
           (Sample.widgetInvoice None 25%float) /\
  taxAmount (Sample.widgetInvoice None 25%float) = None /\
  (tolerance <? abs (lineItemsTotal [Sample.widget] + 0 - 25))%float = true /\
  exists s' log,
    handleDigitize (Sample.answering (Sample.widgetInvoice None 25%float)) Sample.ready
    = Finished s' log /\
    extractedData s' = Some (Sample.widgetInvoice None 25%float) /\
    discrepancyWarning s' = None.
Proof.
  split; [extracts_by_running|].
  split; [reflexivity|]. split; [reflexivity|].
  eexists _, _. split; [vm_compute; reflexivity|].
  split; reflexivity.
Qed.

(** C3 (amended).  For a successful, non-sentinel result in which
    [taxAmount] is absent, the client supplies no default: the sum of the
    line items plus the missing tax is not a number, the comparison with
    0.01 is false, and the handler ends with the result shown and no
    discrepancy warning, whatever the amounts. *)
Theorem C3_missing_tax_never_warns (P : Platform) (s : AppState) (d : InvoiceData) :
  Extracts P s d ->
  vendorName d <> sentinelVendor ->
  taxAmount d = None ->
  exists s' log,
    handleDigitize P s = Finished s' log /\
    extractedData s' = Some d /\
    difference d = nan /\
    discrepancyWarning s' = None.
Proof.
  intros HE Hv Ht.
  destruct (handleDigitize_extracts HE) as [log Hrun].
  exists (setIsLoading false (onData P d (beginDigitize s))), log.
  split; [exact Hrun|].
  rewrite (onData_result P d _ (not_sentinel d Hv)).
  rewrite (difference_without_tax d Ht), ltb_nan_r.
  repeat split.
Qed.

Lemma C3_witness_missing_tax :
  exists s' log,
    handleDigitize (Sample.answering (Sample.widgetInvoice None 25%float)) Sample.ready
    = Finished s' log /\
    discrepancyWarning s' = None.
Proof.
  destruct (@C3_missing_tax_never_warns
              (Sample.answering (Sample.widgetInvoice None 25%float))
              Sample.ready (Sample.widgetInvoice None 25%float))
    as (s' & log & Hrun & _ & _ & Hw).
  - extracts_by_running.
  - discriminate.
  - reflexivity.
  - exists s', log. split; assumption.
Defined.

(** C8 as stated fails: the response text [[]] is valid JSON, so
    [JSON.parse] returns the empty array; the empty array is not of the
    expected structure, yet [digitizeInvoice] returns it and throws
    nothing. *)
Lemma C8_counterexample_valid_json_wrong_shape :
  hasExpectedShape (JArray []) = false /\
  digitizeInvoice (Sample.scripted (Returns (Some "[]")) (Returns (JArray [])))
                  Sample.png "key-123" "gemini-2.5-flash"
  = ([GenerateContent
        (mkRequest "gemini-2.5-flash" (mkInlineData (Some "iVBORw0KGgo=") "image/png"))],
     Returns (JArray [])).
Proof. split; reflexivity. Qed.

(** C8 (amended).  With a credential, [digitizeInvoice] makes one model
    call.  A transport failure is rethrown as it is.  When the response has
    no text or [JSON.parse] rejects it, the call fails with a parse error
    whose message is fixed (the same for every response, and not the
    configuration message), after logging the parser's error and the raw
    response text.  When [JSON.parse] accepts the text, the parsed value is
    returned as the invoice data, without any check against the expected
    structure. *)
Theorem C8_parse_failure_is_reported_distinctly
    (P : Platform) (file : File) (key model : string) :
  Str.truthy key = true ->
  let request := mkRequest model (fileToGenerativePart file) in
  (forall e,
      generateContent P request = Throws e ->
      digitizeInvoice P file key model = ([GenerateContent request], Throws e)) /\
  (forall text e,
      generateContent P request = Returns text ->
      parseResponse P text = Throws e ->
      digitizeInvoice P file key model
      = ([ GenerateContent request
         ; ConsoleError [LogText "Error parsing JSON response from Gemini:"; LogThrown e]
         ; ConsoleError [LogText "Raw response text:"; logText text] ],
         Throws (ErrorInstance parseErrorMessage))) /\
  (forall text v,
      generateContent P request = Returns text ->
      parseResponse P text = Returns v ->
      digitizeInvoice P file key model = ([GenerateContent request], Returns v)) /\
  parseErrorMessage <> configErrorMessage.
Proof.
  intros Hk request. unfold digitizeInvoice. rewrite Hk. cbn [negb]. fold request.
  split; [|split; [|split]].
  - intros e H. rewrite H. reflexivity.
  - intros text e H Hp. rewrite H, Hp. reflexivity.
  - intros text v H Hp. rewrite H, Hp. reflexivity.
  - discriminate.
Qed.

Lemma C8_witness_unparseable_text :
  Str.truthy "key-123" = true /\
  snd (digitizeInvoice
         (Sample.scripted (Returns (Some "Sorry, I cannot read this image."))
                          (Throws (ErrorInstance "Unexpected token S in JSON")))
         Sample.png "key-123" "gemini-2.5-flash")
  = Throws (ErrorInstance parseErrorMessage).
Proof.
  split; [reflexivity|].
  destruct (@C8_parse_failure_is_reported_distinctly
              (Sample.scripted (Returns (Some "Sorry, I cannot read this image."))
                               (Throws (ErrorInstance "Unexpected token S in JSON")))
              Sample.png "key-123" "gemini-2.5-flash" eq_refl)
    as (_ & H & _).
  rewrite (H (Some "Sorry, I cannot read this image.")
             (ErrorInstance "Unexpected token S in JSON") eq_refl eq_refl).
  reflexivity.
Defined.

(** C10.  An invocation that gets past the guards and whose awaited call
    throws, or returns a value of the declared shape (the sentinel or a
    result), completes with the loading flag down; so at the end of an
    extraction attempt the flag is never up together with an error or a
    result.  The three endings leave, respectively, an error and no result;
    an error and no result; the result. *)
Theorem C10_loading_flag_down_after_digitize
    (P : Platform) (s : AppState) (file : File) (events : list Event)
    (result : Outcome JsonValue) :
  imageFile s = Some file ->
  Str.truthy (apiKey s) = true ->
  digitizeInvoice P file (apiKey s) (selectedModel s) = (events, result) ->
  (forall v, result = Returns v -> hasExpectedShape v = true) ->
  exists s' log,
    handleDigitize P s = Finished s' log /\
    isLoading s' = false /\
    ~ (isLoading s' = true /\ (error s' <> None \/ extractedData s' <> None)) /\
    match result with
    | Throws _ => error s' <> None /\ extractedData s' = None
    | Returns v =>
        exists d, asInvoiceData v = Some d /\
          (vendorName d = sentinelVendor -> error s' <> None /\ extractedData s' = None) /\
          (vendorName d <> sentinelVendor -> extractedData s' = Some d)
    end.
Proof.
  intros Hf Hk Hd Hshape.
  destruct result as [v|err].
  - specialize (Hshape v eq_refl). unfold hasExpectedShape in Hshape.
    destruct (asInvoiceData v) as [d|] eqn:Hv; [|discriminate].
    rewrite (handleDigitize_returns P s Hf Hk Hd Hv).
    eexists _, _. split; [reflexivity|].
    cbn [isLoading setIsLoading].
    split; [reflexivity|]. split; [intros [K _]; discriminate|].
    exists d. split; [reflexivity|]. split.
    + intros Hs. rewrite (onData_sentinel P d _ Hs). cbn. split; [discriminate|reflexivity].
    + intros Hs. rewrite (onData_result P d _ (not_sentinel d Hs)). reflexivity.
  - rewrite (handleDigitize_throws P s Hf Hk Hd).
    eexists _, _. split; [reflexivity|].
    cbn [isLoading setIsLoading].
    split; [reflexivity|]. split; [intros [K _]; discriminate|].
    destruct err; cbn; split; solve [discriminate | reflexivity].
Qed.

Lemma C10_witness_transport_failure :
  exists s' log,
    handleDigitize (Sample.scripted (Throws (ErrorInstance "Failed to fetch")) (Returns JNull))
                   Sample.ready = Finished s' log /\
    isLoading s' = false.
Proof.
  destruct (@C10_loading_flag_down_after_digitize
              (Sample.scripted (Throws (ErrorInstance "Failed to fetch")) (Returns JNull))
              Sample.ready Sample.png
              [GenerateContent
                 (mkRequest "gemini-2.5-flash" (mkInlineData (Some "iVBORw0KGgo=") "image/png"))]
              (Throws (ErrorInstance "Failed to fetch")))
    as (s' & log & Hrun & Hl & _).
  - reflexivity.
  - reflexivity.
  - reflexivity.
  - intros v H. discriminate H.
  - exists s', log. split; assumption.
Defined.

(* ================================================================== *)
(** * Further properties of the code                                   *)
(* ================================================================== *)

(** ** Splitting the data URL *)

Lemma splitComma_nonempty s : splitComma s <> [].
Proof.
  destruct s as [|c s]; cbn; [discriminate|].
  destruct (Ascii.eqb c ","); [discriminate|].
  destruct (splitComma s); discriminate.
Qed.

Lemma splitComma_cons_other c s :
  Ascii.eqb c "," = false ->
  exists hd tl, splitComma s = hd :: tl /\ splitComma (String c s) = String c hd :: tl.
Proof.
  intros Hc. destruct (splitComma s) as [|hd tl] eqn:E.
  - exfalso. exact (splitComma_nonempty s E).
  - exists hd, tl. split; [reflexivity|]. cbn. rewrite Hc, E. reflexivity.
Qed.

Lemma joinComma_cons_char c hd tl :
  joinComma (String c hd :: tl) = String c (joinComma (hd :: tl)).
Proof. destruct tl; reflexivity. Qed.

Lemma joinComma_empty_head tl :
  tl <> [] -> joinComma (EmptyString :: tl) = String "," (joinComma tl).
Proof. destruct tl; [congruence|reflexivity]. Qed.

(** [split(',')] loses nothing: joining the pieces with commas gives the
    string back, no piece holds a comma, and there is always a first
    piece. *)
Lemma split_join_round_trip (s : string) :
  joinComma (splitComma s) = s /\
  Forall (fun piece => hasComma piece = false) (splitComma s) /\
  splitComma s <> [].
Proof.
  split; [|split; [|apply splitComma_nonempty]].
  - induction s as [|c s IH]; [reflexivity|].
    destruct (Ascii.eqb c ",") eqn:Hc.
    + cbn. rewrite Hc. apply Ascii.eqb_eq in Hc. subst c.
      rewrite joinComma_empty_head by apply splitComma_nonempty.
      rewrite IH. reflexivity.
    + destruct (@splitComma_cons_other c s Hc) as (hd & tl & E & ->).
      rewrite joinComma_cons_char, <- E, IH. reflexivity.
  - induction s as [|c s IH]; [repeat constructor|].
    destruct (Ascii.eqb c ",") eqn:Hc.
    + cbn. rewrite Hc. constructor; [reflexivity|exact IH].
    + destruct (@splitComma_cons_other c s Hc) as (hd & tl & E & ->).
      rewrite E in IH. inversion IH as [|? ? Hhd Htl]; subst.
      constructor; [|exact Htl]. cbn. rewrite Hc, Hhd. reflexivity.
Qed.

Lemma splitComma_header header rest :
  hasComma header = false ->
  splitComma (header ++ String "," rest) = header :: splitComma rest.
Proof.
  induction header as [|c header IH]; intros H; [reflexivity|].
  cbn in H. apply orb_false_iff in H. destruct H as [Hc Hh].
  cbn. rewrite Hc, (IH Hh). reflexivity.
Qed.

Lemma splitComma_no_comma s : hasComma s = false -> splitComma s = [s].
Proof.
  induction s as [|c s IH]; intros H; [reflexivity|].
  cbn in H. apply orb_false_iff in H. destruct H as [Hc Hs].
  cbn. rewrite Hc, (IH Hs). reflexivity.
Qed.

(** X1.  For a file whose data URL is a header, a comma and a payload, none
    of them holding a further comma, [fileToGenerativePart] sends exactly
    the payload with the file's media type; for a data URL with no comma at
    all the payload is [undefined], and nothing is raised. *)
Theorem X1_inline_data_is_the_payload (name type header payload : string) :
  hasComma header = false ->
  hasComma payload = false ->
  fileToGenerativePart (mkFile name type (Some (header ++ String "," payload)))
  = mkInlineData (Some payload) type /\
  fileToGenerativePart (mkFile name type (Some header)) = mkInlineData None type.
Proof.
  intros Hh Hp. unfold fileToGenerativePart. cbn [fileDataURL fileType].
  rewrite (@splitComma_header header payload Hh), (@splitComma_no_comma payload Hp).
  rewrite (@splitComma_no_comma header Hh). split; reflexivity.
Qed.

Lemma X1_witness_png :
  fileToGenerativePart
    (mkFile "invoice.png" "image/png" (Some ("data:image/png;base64" ++ String "," "iVBORw0KGgo=")))
  = mkInlineData (Some "iVBORw0KGgo=") "image/png".
Proof.
  exact (proj1 (@X1_inline_data_is_the_payload
                  "invoice.png" "image/png" "data:image/png;base64" "iVBORw0KGgo="
                  eq_refl eq_refl)).
Defined.

(** ** The sanitizer, composed with itself and across letter case *)

Lemma letter_of_upperChar c : IsLetter (Str.upperChar c) -> IsLetter c.
Proof.
  unfold Str.upperChar. destruct (Str.inRange "a" "z" c) eqn:E; [|tauto].
  intros _. right. apply inRange_iff in E. exact E.
Qed.

Lemma ThreeOf_upper_letters_char c : IsUpper c -> IsLetter c.
Proof. intros H. left. exact H. Qed.

Lemma three_letters_by_upper a b :
  Str.toUpperCase a = Str.toUpperCase b -> ThreeOf IsLetter a -> ThreeOf IsLetter b.
Proof.
  intros E (x & y & z & -> & Hx & Hy & Hz).
  destruct b as [|x' [|y' [|z' [|? ?]]]]; try discriminate E.
  cbn in E. injection E as Ex Ey Ez.
  exists x', y', z'. split; [reflexivity|].
  repeat split; apply letter_of_upperChar;
    [rewrite <- Ex | rewrite <- Ey | rewrite <- Ez];
    apply ThreeOf_upper_letters_char; apply upperChar_UpperOf; assumption.
Qed.

(** X2.  The sanitizer is idempotent, and it does not see letter case:
    two inputs that differ only in the case of their ASCII letters get the
    same code. *)
Theorem X2_sanitizer_idempotent_and_case_blind :
  (forall code,
      getSafeCurrencyCode (Some (getSafeCurrencyCode code)) = getSafeCurrencyCode code) /\
  (forall a b,
      sameUpToCase a b ->
      getSafeCurrencyCode (Some a) = getSafeCurrencyCode (Some b)).
Proof.
  split.
  - intros code. pose proof (getSafeCurrencyCode_upper code) as U.
    rewrite (getSafeCurrencyCode_match (ThreeOf_upper_letters U)).
    apply toUpperCase_fixes_upper. exact U.
  - intros a b E. unfold sameUpToCase in E.
    destruct (Str.testClassRepeat Str.class_azAZ 3 a) eqn:Ta.
    + apply test_azAZ_iff in Ta.
      pose proof (@three_letters_by_upper a b E Ta) as Tb.
      rewrite (getSafeCurrencyCode_match Ta), (getSafeCurrencyCode_match Tb). exact E.
    + assert (Str.testClassRepeat Str.class_azAZ 3 b = false) as Tb.
      { destruct (Str.testClassRepeat Str.class_azAZ 3 b) eqn:Tb; [|reflexivity].
        apply test_azAZ_iff in Tb.
        pose proof (@three_letters_by_upper b a (eq_sym E) Tb) as K.
        apply test_azAZ_iff in K. congruence. }
      unfold getSafeCurrencyCode. rewrite Ta, Tb, !andb_false_r. reflexivity.
Qed.

(** ** Settings survive a reload *)

Lemma getItem_setItem_same k v store : getItem (setItem k v store) k = Some v.
Proof. cbn. rewrite String.eqb_refl. reflexivity. Qed.

Lemma getItem_setItem_other k k' v store :
  String.eqb k' k = false -> getItem (setItem k v store) k' = getItem store k'.
Proof. intros H. cbn. rewrite H. reflexivity. Qed.

Lemma truthy_false_empty s : Str.truthy s = false -> s = EmptyString.
Proof. destruct s; [reflexivity|discriminate]. Qed.

Lemma apiKey_mountEffect inherited store s :
  apiKey (mountEffect inherited store s)
  = match getItem store API_KEY_STORAGE_KEY with
    | Some k => if Str.truthy k then k else apiKey s
    | None => apiKey s
    end.
Proof.
  unfold mountEffect.
  destruct (getItem store MODEL_STORAGE_KEY) as [m|];
    [destruct (Str.truthy m && modelsHas inherited m)|];
    destruct (getItem store API_KEY_STORAGE_KEY) as [k|];
    try destruct (Str.truthy k); reflexivity.
Qed.

Lemma selectedModel_mountEffect inherited store s :
  selectedModel (mountEffect inherited store s)
  = match getItem store MODEL_STORAGE_KEY with
    | Some m => if Str.truthy m && modelsHas inherited m then m else selectedModel s
    | None => selectedModel s
    end.
Proof.
  unfold mountEffect.
  destruct (getItem store MODEL_STORAGE_KEY) as [m|];
    [destruct (Str.truthy m && modelsHas inherited m)|];
    destruct (getItem store API_KEY_STORAGE_KEY) as [k|];
    try destruct (Str.truthy k); reflexivity.
Qed.

Lemma models_keys m :
  getItem models m <> None ->
  m = "gemini-2.5-pro" \/ m = "gemini-2.5-flash" \/ m = "gemini-flash-lite-latest".
Proof.
  cbn. intros H.
  destruct (String.eqb_spec m "gemini-2.5-pro"); [auto|].
  destruct (String.eqb_spec m "gemini-2.5-flash"); [auto|].
  destruct (String.eqb_spec m "gemini-flash-lite-latest"); [auto|].
  congruence.
Qed.

(** X3.  A key saved with [handleSave] is the key the page starts with
    after a reload (the mount effect on the storage that [handleSave]
    left), whatever else the storage holds; saving does not disturb the
    stored model. *)
Theorem X3_saved_key_survives_reload
    (inherited : string -> bool) (km : KeyManager) (s : AppState) (store : Storage) :
  let '(_, s', store') := handleSave km s store in
  apiKey s' = localApiKey km /\
  apiKey (mountEffect inherited store' initialState) = localApiKey km /\
  getItem store' MODEL_STORAGE_KEY = getItem store MODEL_STORAGE_KEY.
Proof.
  unfold handleSave. split; [reflexivity|]. split; [|reflexivity].
  rewrite apiKey_mountEffect, getItem_setItem_same.
  destruct (Str.truthy (localApiKey km)) eqn:E; [reflexivity|].
  symmetry. apply truthy_false_empty. exact E.
Qed.

(** X4.  A model chosen in the selector (one of the keys of [models]) is
    the model the page starts with after a reload.  A stored value that is
    empty, or for which [models[value]] is falsy (no own entry, nothing
    inherited under that name), leaves the default model in place. *)
Theorem X4_chosen_model_survives_reload
    (inherited : string -> bool) (m : string) (s : AppState) (store : Storage) :
  (getItem models m <> None ->
   selectedModel (mountEffect inherited (snd (handleModelChange m s store)) initialState)
   = m) /\
  (Str.truthy m && modelsHas inherited m = false ->
   selectedModel (mountEffect inherited (snd (handleModelChange m s store)) initialState)
   = "gemini-2.5-flash") /\
  (getItem store MODEL_STORAGE_KEY = None ->
   selectedModel (mountEffect inherited store initialState) = "gemini-2.5-flash").
Proof.
  split; [|split].
  - intros Hm. rewrite selectedModel_mountEffect. cbn [snd handleModelChange].
    rewrite getItem_setItem_same.
    assert (Str.truthy m && modelsHas inherited m = true) as ->; [|reflexivity].
    destruct (models_keys m Hm) as [-> | [-> | ->]]; reflexivity.
  - intros Hm. rewrite selectedModel_mountEffect. cbn [snd handleModelChange].
    rewrite getItem_setItem_same, Hm. reflexivity.
  - intros Hm. rewrite selectedModel_mountEffect, Hm. reflexivity.
Qed.

Lemma X4_witness_pro_model :
  getItem models "gemini-2.5-pro" <> None /\
  selectedModel
    (mountEffect (fun _ => false)
       (snd (handleModelChange "gemini-2.5-pro" initialState [])) initialState)
  = "gemini-2.5-pro".
Proof.
  split; [discriminate|].
  apply (proj1 (X4_chosen_model_survives_reload (fun _ => false)
                  "gemini-2.5-pro" initialState [])).
  discriminate.
Defined.

(** ** Reset *)

(** X5.  [handleReset] keeps the key and the model and clears every other
    cell; it is idempotent and absorbs an earlier file selection; after it
    the upload area is back, the Digitize button is disabled, the Clear
    button is gone and the result panel shows its placeholder. *)
Theorem X5_reset_returns_to_idle (P : Platform) (s : AppState) (file : File) :
  handleReset s
  = mkAppState (apiKey s) (selectedModel s) None None false None false None None /\
  handleReset (handleReset s) = handleReset s /\
  handleReset (handleFileSelect file s) = handleReset s /\
  leftPane (handleReset s) = UploadPane /\
  digitizeDisabled (handleReset s) = true /\
  clearShown (handleReset s) = false /\
  resultPanel P (handleReset s) = Returns PlaceholderView.
Proof. repeat split. Qed.

(** ** One click, one call *)

Lemma digitizeDisabled_false s :
  digitizeDisabled s = false ->
  exists file, imageFile s = Some file /\ isLoading s = false /\ Str.truthy (apiKey s) = true.
Proof.
  unfold digitizeDisabled. destruct (imageFile s) as [file|]; [|discriminate].
  intros H. apply orb_false_iff in H. destruct H as [Hl Hk].
  exists file. repeat split; [exact Hl|].
  destruct (Str.truthy (apiKey s)); [reflexivity|discriminate].
Qed.

(** X6.  Whenever the Digitize button is enabled, a click calls
    [digitizeInvoice] once, on the chosen file with the saved key and the
    selected model, and exactly one request goes out, naming that model and
    the file's media type; the handler's own guard messages are never the
    outcome. *)
Theorem X6_enabled_click_makes_one_call (P : Platform) (s : AppState) :
  digitizeDisabled s = false ->
  exists file rest,
    imageFile s = Some file /\
    eventsOf (handleDigitize P s)
    = CallDigitizeInvoice file (apiKey s) (selectedModel s)
        :: GenerateContent (mkRequest (selectedModel s) (fileToGenerativePart file))
        :: rest /\
    filter isOutbound rest = [] /\
    mimeType (fileToGenerativePart file) = fileType file.
Proof.
  intros H. destruct (digitizeDisabled_false s H) as (file & Hf & _ & Hk).
  exists file. unfold handleDigitize, digitizeInvoice. rewrite Hf, Hk. cbn [negb].
  destruct (generateContent P _) as [text|e].
  - destruct (parseResponse P text) as [v|e].
    + destruct (asInvoiceData v); eexists; repeat split; reflexivity.
    + eexists; repeat split; reflexivity.
  - eexists; repeat split; reflexivity.
Qed.

Lemma X6_witness_ready :
  exists file rest,
    imageFile Sample.ready = Some file /\
    eventsOf (handleDigitize (Sample.scripted (Returns None) (Returns JNull)) Sample.ready)
    = CallDigitizeInvoice file "key-123" "gemini-2.5-flash"
        :: GenerateContent (mkRequest "gemini-2.5-flash" (fileToGenerativePart file))
        :: rest.
Proof.
  destruct (@X6_enabled_click_makes_one_call
              (Sample.scripted (Returns None) (Returns JNull)) Sample.ready eq_refl)
    as (file & rest & Hf & He & _).
  exists file, rest. split; [exact Hf|exact He].
Defined.

(** ** What the user sees after an extraction *)

Lemma orElse_truthy a b : Str.truthy b = true -> Str.truthy (Str.orElse a b) = true.
Proof.
  intros H. unfold Str.orElse. destruct a as [s|]; [|exact H].
  destruct (Str.truthy s) eqn:E; [exact E|exact H].
Qed.

Lemma orNull_truthy s : Str.truthy s = true -> Str.orNull (Some s) = Some s.
Proof. intros H. cbn. rewrite H. reflexivity. Qed.

(** X7.  After a sentinel response the result panel always shows the error
    view, with a message that is not empty (the response's notes, or the
    fallback): never the data, never the placeholder, never the spinner. *)
Theorem X7_sentinel_shows_error_view (P : Platform) (s : AppState) (d : InvoiceData) :
  Extracts P s d ->
  vendorName d = sentinelVendor ->
  exists s' log message,
    handleDigitize P s = Finished s' log /\
    resultPanel P s' = Returns (ErrorView message) /\
    message <> EmptyString /\
    message = Str.orElse (notes d) invalidDocumentFallback.
Proof.
  intros HE Hv. destruct (handleDigitize_extracts HE) as [log Hrun].
  exists (setIsLoading false (onData P d (beginDigitize s))), log,
         (Str.orElse (notes d) invalidDocumentFallback).
  split; [exact Hrun|].
  assert (Str.truthy (Str.orElse (notes d) invalidDocumentFallback) = true) as T
    by (apply orElse_truthy; reflexivity).
  rewrite (onData_sentinel P d _ Hv).
  unfold resultPanel, ExtractedDataDisplay.
  cbn [isLoading error setIsLoading setExtractedData setError].
  rewrite (orNull_truthy _ T).
  split; [reflexivity|]. split; [|reflexivity].
  intros E. rewrite E in T. discriminate T.
Qed.

Lemma X7_witness_rejected_without_notes :
  exists s' log,
    handleDigitize (Sample.answering (Sample.rejected None)) Sample.ready = Finished s' log /\
    resultPanel (Sample.answering (Sample.rejected None)) s'
    = Returns (ErrorView invalidDocumentFallback).
Proof.
  destruct (@X7_sentinel_shows_error_view
              (Sample.answering (Sample.rejected None)) Sample.ready (Sample.rejected None))
    as (s' & log & message & Hrun & Hview & _ & Hm).
  - extracts_by_running.
  - reflexivity.
  - exists s', log. split; [exact Hrun|]. rewrite Hview, Hm. reflexivity.
Defined.

(** X8.  When the awaited call throws, the result panel shows the error
    view with the thrown error's message as it is, or the fixed
    unknown-error text for a thrown value that is not an [Error]; but an
    [Error] whose message is empty leaves the panel on its placeholder, as
    if nothing had happened. *)
Theorem X8_thrown_error_is_shown_verbatim
    (P : Platform) (s : AppState) (file : File) (events : list Event) (err : Thrown) :
  imageFile s = Some file ->
  Str.truthy (apiKey s) = true ->
  digitizeInvoice P file (apiKey s) (selectedModel s) = (events, Throws err) ->
  exists s' log,
    handleDigitize P s = Finished s' log /\
    resultPanel P s'
    = Returns match err with
              | ErrorInstance message =>
                  if Str.truthy message then ErrorView message else PlaceholderView
              | NonError => ErrorView unknownErrorMessage
              end.
Proof.
  intros Hf Hk Hd. rewrite (handleDigitize_throws P s Hf Hk Hd).
  eexists _, _. split; [reflexivity|].
  unfold resultPanel, ExtractedDataDisplay.
  destruct err as [message|]; cbn; [|reflexivity].
  destruct (Str.truthy message); reflexivity.
Qed.

Lemma X8_witness_transport_failure :
  exists s' log,
    handleDigitize (Sample.scripted (Throws (ErrorInstance "Failed to fetch")) (Returns JNull))
                   Sample.ready = Finished s' log /\
    resultPanel (Sample.scripted (Throws (ErrorInstance "Failed to fetch")) (Returns JNull)) s'
    = Returns (ErrorView "Failed to fetch").
Proof.
  exact (@X8_thrown_error_is_shown_verbatim
           (Sample.scripted (Throws (ErrorInstance "Failed to fetch")) (Returns JNull))
           Sample.ready Sample.png
           [GenerateContent
              (mkRequest "gemini-2.5-flash" (mkInlineData (Some "iVBORw0KGgo=") "image/png"))]
           (ErrorInstance "Failed to fetch") eq_refl eq_refl eq_refl).
Defined.

(** X9.  After a successful, non-sentinel extraction the result panel
    renders the data view and never throws, whatever the currency text:
    one row per line item; the note banner exactly for non-empty notes; the
    warning banner exactly when the difference exceeds the tolerance; the
    tax field exactly when the tax is a number above 0; the due date, or
    [N/A] when it is absent or empty. *)
Theorem X9_success_shows_data_view (P : Platform) (s : AppState) (d : InvoiceData) :
  Extracts P s d ->
  vendorName d <> sentinelVendor ->
  exists s' log p,
    handleDigitize P s = Finished s' log /\
    resultPanel P s' = Returns (DataView p) /\
    length (panelRows p) = length (lineItems d) /\
    noteBanner p = Str.orNull (notes d) /\
    (warningBanner p <> None <-> PrimFloat.ltb tolerance (difference d) = true) /\
    (panelTax p <> None <-> PrimFloat.ltb 0 (toNumber (taxAmount d)) = true) /\
    panelDueDate p = Str.orElse (dueDate d) "N/A" /\
    panelVendor p = vendorName d.
Proof.
  intros HE Hv. destruct (handleDigitize_extracts HE) as [log Hrun].
  eexists _, log, _. split; [exact Hrun|].
  rewrite (onData_result P d _ (not_sentinel d Hv)).
  unfold resultPanel, ExtractedDataDisplay.
  cbn [isLoading error extractedData discrepancyWarning aiNote beginDigitize
       setIsLoading setDiscrepancyWarning setAiNote setExtractedData setError].
  rewrite Intl_NumberFormat_safe.
  split; [reflexivity|].
  cbn [panelRows noteBanner warningBanner panelTax panelDueDate panelVendor].
  split; [apply length_map|]. split.
  { destruct (notes d) as [n|]; [|reflexivity]. cbn. destruct (Str.truthy n) eqn:E; cbn; rewrite ?E; reflexivity. }
  split.
  { destruct (PrimFloat.ltb tolerance (difference d)); cbn; split; congruence. }
  split; [|split; reflexivity].
  destruct (PrimFloat.ltb 0 (toNumber (taxAmount d))); split; congruence.
Qed.

Lemma X9_witness_widget :
  exists s' log p,
    handleDigitize (Sample.answering (Sample.widgetInvoice (Some 1.5%float) 25%float))
                   Sample.ready = Finished s' log /\
    resultPanel (Sample.answering (Sample.widgetInvoice (Some 1.5%float) 25%float)) s'
    = Returns (DataView p) /\
    panelDueDate p = "N/A".
Proof.
  destruct (@X9_success_shows_data_view
              (Sample.answering (Sample.widgetInvoice (Some 1.5%float) 25%float))
              Sample.ready (Sample.widgetInvoice (Some 1.5%float) 25%float))
    as (s' & log & p & Hrun & Hview & _ & _ & _ & _ & Hdue & _).
  - extracts_by_running.
  - discriminate.
  - exists s', log, p. split; [exact Hrun|]. split; [exact Hview|exact Hdue].
Defined.

(** ** The page as a whole *)

Lemma settleDigitize_cells P r s :
  isLoading (settleDigitize P r s) = false /\
  imageFile (settleDigitize P r s) = imageFile s /\
  apiKey (settleDigitize P r s) = apiKey s /\
  selectedModel (settleDigitize P r s) = selectedModel s /\
  cameraActive (settleDigitize P r s) = cameraActive s.
Proof.
  destruct r as [d|err]; cbn [settleDigitize].
  - unfold onData. destruct (String.eqb (vendorName d) sentinelVendor).
    + repeat split.
    + destruct (validateTotals P d) as [[w|]|e]; [repeat split..|].
      destruct e; repeat split.
  - destruct err; repeat split.
Qed.

Lemma Forall_removeNth {A : Type} (Q : A -> Prop) i (l : list A) :
  Forall Q l -> Forall Q (removeNth i l).
Proof.
  intros H. revert i. induction H as [|x l Hx Hl IH]; intros i; [destruct i; constructor|].
  destruct i; cbn; [exact Hl|]. constructor; [exact Hx|apply IH].
Qed.

Lemma leftPane_upload s :
  isUploadPane s = true -> imageFile s = None /\ cameraActive s = false.
Proof.
  unfold isUploadPane, leftPane. destruct (imageFile s); [discriminate|].
  destruct (cameraActive s); [discriminate|]. split; reflexivity.
Qed.

Lemma mountEffect_cells inherited store s :
  isLoading (mountEffect inherited store s) = isLoading s /\
  cameraActive (mountEffect inherited store s) = cameraActive s /\
  imageFile (mountEffect inherited store s) = imageFile s.
Proof.
  unfold mountEffect.
  destruct (getItem store MODEL_STORAGE_KEY) as [m|];
    [destruct (Str.truthy m && modelsHas inherited m)|];
    destruct (getItem store API_KEY_STORAGE_KEY) as [k|];
    try destruct (Str.truthy k); repeat split.
Qed.

(** Unfold the invariant down to the cells of the state before the event. *)
Ltac page_cells :=
  unfold PageInvariant;
  cbn [app storage inFlight withApp withKeyManager];
  cbn [handleFileSelect handleCapture handleReset beginDigitize
       setImageFile setExtractedData setIsLoading setError setCameraActive
       setDiscrepancyWarning setAiNote setApiKey setSelectedModel
       isLoading imageFile apiKey cameraActive selectedModel].

Lemma PageInvariant_mount inherited store : PageInvariant inherited (mount inherited store).
Proof.
  unfold PageInvariant, mount. cbn [app storage inFlight].
  destruct (mountEffect_cells inherited store initialState) as (Hl & Hc & _).
  rewrite Hl, Hc, apiKey_mountEffect, selectedModel_mountEffect.
  split; [discriminate|]. split; [discriminate|]. split; [|split; [|constructor]].
  - destruct (getItem store API_KEY_STORAGE_KEY) as [k|]; [|discriminate].
    destruct (Str.truthy k); [reflexivity|discriminate].
  - destruct (getItem store MODEL_STORAGE_KEY) as [m|]; [|reflexivity].
    destruct (Str.truthy m && modelsHas inherited m) eqn:E; [|reflexivity].
    apply andb_true_iff in E. apply E.
Qed.

Lemma PageInvariant_file inherited u file :
  PageInvariant inherited u ->
  PageInvariant inherited (withApp u (setCameraActive false (handleFileSelect file (app u)))).
Proof.
  intros (I1 & I2 & I3 & I4 & I5). page_cells.
  split; [|split; [discriminate|split; [exact I3|split; [exact I4|exact I5]]]].
  intros H. destruct (I1 H) as (_ & Hk & Hn).
  split; [discriminate|split; assumption].
Qed.

Lemma handleFileSelect_upload s file :
  isUploadPane s = true ->
  handleFileSelect file s = setCameraActive false (handleFileSelect file s).
Proof.
  intros H. destruct (leftPane_upload s H) as (_ & Hc).
  destruct s. cbn in Hc. subst. reflexivity.
Qed.

Lemma PageInvariant_selectIfAny inherited u f :
  isUploadPane (app u) = true ->
  PageInvariant inherited u -> PageInvariant inherited (selectIfAny f u).
Proof.
  intros Hp I. destruct f as [file|]; [|exact I].
  unfold selectIfAny. rewrite (handleFileSelect_upload (app u) file Hp).
  apply PageInvariant_file. exact I.
Qed.

Lemma PageInvariant_step P inherited u e u' :
  PageInvariant inherited u -> step P u e = Some u' -> PageInvariant inherited u'.
Proof.
  intros I Hs. pose proof I as (I1 & I2 & I3 & I4 & I5).
  destruct e; cbn [step] in Hs.
  - (* ChooseFile *)
    destruct (isUploadPane (app u)) eqn:Hp; [|discriminate].
    destruct (isLoading (app u)); [discriminate|].
    injection Hs as <-. apply PageInvariant_selectIfAny; assumption.
  - (* DropFiles *)
    destruct (isUploadPane (app u)) eqn:Hp; [|discriminate].
    injection Hs as <-. apply PageInvariant_selectIfAny; assumption.
  - (* ClickUseCamera *)
    destruct (isUploadPane (app u)) eqn:Hp; [|discriminate].
    destruct (isLoading (app u)) eqn:Hl; [discriminate|].
    injection Hs as <-. destruct (leftPane_upload _ Hp) as (Hf & _).
    page_cells. rewrite Hl.
    split; [discriminate|]. split; [intros _; exact Hf|].
    split; [exact I3|split; [exact I4|exact I5]].
  - (* Capture *)
    injection Hs as <-. apply PageInvariant_file. exact I.
  - (* CancelCamera *)
    destruct (isCameraPane (app u)); [|discriminate].
    injection Hs as <-. page_cells.
    split; [exact I1|]. split; [discriminate|].
    split; [exact I3|split; [exact I4|exact I5]].
  - (* ClickDigitize *)
    destruct (digitizeDisabled (app u)) eqn:Hd; [discriminate|].
    destruct (digitizeDisabled_false _ Hd) as (file & Hf & Hl & Hk).
    unfold startDigitize in Hs. rewrite Hf, Hk in Hs. cbn [negb] in Hs.
    injection Hs as <-. page_cells. rewrite Hf. rewrite Hf in I2.
    split; [intros _|split; [exact I2|split; [exact I3|split; [exact I4|]]]].
    + split; [discriminate|]. split; [exact Hk|].
      intros E. destruct (inFlight u); discriminate E.
    + apply Forall_app. split; [exact I5|]. constructor; [exact Hk|constructor].
  - (* Settle *)
    destruct (nth_error (inFlight u) i); [|discriminate].
    injection Hs as <-.
    destruct (settleDigitize_cells P r (app u)) as (Hl & Hf & Hk & Hm & Hc).
    unfold PageInvariant. cbn [app storage inFlight].
    rewrite Hl, Hf, Hk, Hm, Hc.
    split; [discriminate|]. split; [exact I2|]. split; [exact I3|]. split; [exact I4|].
    apply Forall_removeNth. exact I5.
  - (* ClickClear *)
    destruct (clearShown (app u)); [|discriminate].
    injection Hs as <-. page_cells.
    split; [discriminate|]. split; [reflexivity|].
    split; [exact I3|split; [exact I4|exact I5]].
  - (* TypeKey *)
    destruct (keySummaryShown (keyManager u) (app u)); [discriminate|].
    injection Hs as <-. exact I.
  - (* ClickSaveKey *)
    destruct (keySummaryShown (keyManager u) (app u)); [discriminate|].
    destruct (saveDisabled (keyManager u)) eqn:Hsave; [discriminate|].
    cbn [orb handleSave] in Hs. injection Hs as <-.
    unfold saveDisabled in Hsave. apply negb_false_iff in Hsave.
    page_cells. rewrite getItem_setItem_same.
    split; [|split; [exact I2|split; [reflexivity|split; [exact I4|exact I5]]]].
    intros H. destruct (I1 H) as (Hf & _ & Hn). split; [exact Hf|split; assumption].
  - (* ClickEditKey *)
    destruct (keySummaryShown (keyManager u) (app u)); [|discriminate].
    injection Hs as <-. exact I.
  - (* SavedTimeout *)
    injection Hs as <-. exact I.
  - (* SelectModel *)
    destruct (getItem models m) as [name|] eqn:Hm; [|discriminate].
    cbn [handleModelChange] in Hs. injection Hs as <-.
    page_cells. rewrite getItem_setItem_other by reflexivity.
    split; [exact I1|]. split; [exact I2|]. split; [exact I3|]. split; [|exact I5].
    assert (getItem models m <> None) as Hk by congruence.
    unfold modelsHas.
    destruct (models_keys m Hk) as [-> | [-> | ->]]; reflexivity.
Qed.

(** X10.  However the page is used from its mount on any storage: the
    spinner is up only with a file chosen, a key saved and a call in
    flight; the camera is on only while no file is chosen; a non-empty key
    in use is the key in storage; [models[selectedModel]] is truthy (an own
    entry, or a name the object inherits); every call in flight was made
    with a non-empty key; and the upload area is never shown while
    loading. *)
Theorem X10_page_invariant
    (P : Platform) (inherited : string -> bool) (store : Storage)
    (events : list UiEvent) (u : Ui) :
  run P events (mount inherited store) = Some u ->
  PageInvariant inherited u /\
  (isUploadPane (app u) = true -> isLoading (app u) = false).
Proof.
  intros Hrun.
  assert (PageInvariant inherited u) as I.
  { pose proof (PageInvariant_mount inherited store) as I0.
    revert Hrun I0. generalize (mount inherited store) as u0.
    induction events as [|e events IH]; intros u0 Hrun I0.
    - injection Hrun as <-. exact I0.
    - cbn [run] in Hrun. destruct (step P u0 e) as [u1|] eqn:Hs; [|discriminate].
      apply (IH u1 Hrun). exact (PageInvariant_step P e I0 Hs). }
  split; [exact I|].
  intros Hp. apply leftPane_upload in Hp. destruct Hp as (Hp & _).
  destruct (isLoading (app u)) eqn:Hl; [|reflexivity].
  destruct I as (I1 & _). destruct (I1 Hl) as (Hf & _). congruence.
Qed.

Lemma X10_witness_first_extraction :
  exists u,
    run (Sample.answering (Sample.widgetInvoice (Some 1.5%float) 25%float))
        [TypeKey "key-123"; ClickSaveKey; ChooseFile [Sample.png]; ClickDigitize]
        (mount (fun _ => false) []) = Some u /\
    PageInvariant (fun _ => false) u /\
    isLoading (app u) = true.
Proof.
  eexists. split; [vm_compute; reflexivity|]. split; [|reflexivity].
  refine (proj1 (@X10_page_invariant
                   (Sample.answering (Sample.widgetInvoice (Some 1.5%float) 25%float))
                   (fun _ => false) []
                   [TypeKey "key-123"; ClickSaveKey; ChooseFile [Sample.png]; ClickDigitize]
                   _ _)).
  vm_compute. reflexivity.
Defined.

Lemma SingleFlight_same_cells u u' :
  isLoading (app u') = isLoading (app u) ->
  inFlight u' = inFlight u ->
  SingleFlight u -> SingleFlight u'.
Proof. unfold SingleFlight. intros -> ->. tauto. Qed.

Lemma SingleFlight_selectIfAny f u : SingleFlight u -> SingleFlight (selectIfAny f u).
Proof.
  destruct f as [file|]; [|tauto].
  apply SingleFlight_same_cells; reflexivity.
Qed.

Lemma SingleFlight_step P u e u' :
  SingleFlight u -> calmStep P u e = Some u' -> SingleFlight u'.
Proof.
  unfold calmStep. intros S Hs.
  destruct e; cbn [isClear andb] in Hs; cbn [step] in Hs.
  - destruct (isUploadPane (app u) && negb (isLoading (app u))); [|discriminate].
    injection Hs as <-. apply SingleFlight_selectIfAny. exact S.
  - destruct (isUploadPane (app u)); [|discriminate].
    injection Hs as <-. apply SingleFlight_selectIfAny. exact S.
  - destruct (isUploadPane (app u) && negb (isLoading (app u))); [|discriminate].
    injection Hs as <-. revert S. apply SingleFlight_same_cells; reflexivity.
  - injection Hs as <-. revert S. apply SingleFlight_same_cells; reflexivity.
  - destruct (isCameraPane (app u)); [|discriminate]. injection Hs as <-.
    revert S. apply SingleFlight_same_cells; reflexivity.
  - destruct (digitizeDisabled (app u)) eqn:Hd; [discriminate|].
    destruct (digitizeDisabled_false _ Hd) as (file & Hf & Hl & Hk).
    unfold startDigitize in Hs. rewrite Hf, Hk in Hs. cbn [negb] in Hs.
    injection Hs as <-. left. split; [reflexivity|]. cbn [inFlight].
    destruct S as [(Hl' & _)|(_ & ->)]; [congruence|reflexivity].
  - destruct (nth_error (inFlight u) i) as [c|] eqn:Hn; [|discriminate].
    injection Hs as <-. right.
    destruct (settleDigitize_cells P r (app u)) as (Hl & _).
    split; [exact Hl|]. cbn [inFlight].
    destruct S as [(_ & Hlen)|(_ & He)].
    + destruct (inFlight u) as [|c0 [|c1 rest]]; try discriminate Hlen.
      destruct i as [|i]; [reflexivity|]. destruct i; discriminate Hn.
    + rewrite He in Hn. destruct i; discriminate Hn.
  - destruct (isLoading (app u)) eqn:Hl; [discriminate|].
    destruct (clearShown (app u)); [|discriminate].
    injection Hs as <-. right. split; [reflexivity|]. cbn [inFlight withApp].
    destruct S as [(Hl' & _)|(_ & He)]; [congruence|exact He].
  - destruct (keySummaryShown (keyManager u) (app u)); [discriminate|].
    injection Hs as <-. revert S. apply SingleFlight_same_cells; reflexivity.
  - destruct (keySummaryShown (keyManager u) (app u) || saveDisabled (keyManager u));
      [discriminate|].
    cbn [handleSave] in Hs. injection Hs as <-.
    revert S. apply SingleFlight_same_cells; reflexivity.
  - destruct (keySummaryShown (keyManager u) (app u)); [|discriminate].
    injection Hs as <-. revert S. apply SingleFlight_same_cells; reflexivity.
  - injection Hs as <-. revert S. apply SingleFlight_same_cells; reflexivity.
  - destruct (getItem models m); [|discriminate].
    cbn [handleModelChange] in Hs. injection Hs as <-.
    revert S. apply SingleFlight_same_cells; reflexivity.
Qed.

Lemma SingleFlight_mount inherited store : SingleFlight (mount inherited store).
Proof.
  right. unfold mount. cbn [app inFlight].
  destruct (mountEffect_cells inherited store initialState) as (Hl & _).
  rewrite Hl. split; reflexivity.
Qed.

(** X11.  As long as Clear is not pressed while the page is loading, there
    is at most one extraction call in flight, and the spinner is up exactly
    while there is one: the disabled Digitize button is what keeps a second
    call from starting. *)
Theorem X11_single_flight_without_clear
    (P : Platform) (inherited : string -> bool) (store : Storage)
    (events : list UiEvent) (u : Ui) :
  runCalm P events (mount inherited store) = Some u ->
  SingleFlight u /\
  (length (inFlight u) <= 1)%nat /\
  (isLoading (app u) = true <-> inFlight u <> []) /\
  run P events (mount inherited store) = Some u.
Proof.
  intros Hrun.
  pose proof (SingleFlight_mount inherited store) as S0.
  revert Hrun S0. generalize (mount inherited store) as u0.
  induction events as [|e events IH]; intros u0 Hrun S0.
  - injection Hrun as <-. split; [exact S0|].
    destruct S0 as [(Hl & Hn)|(Hl & He)].
    + split; [lia|]. split; [|reflexivity]. split.
      * intros _ E. rewrite E in Hn. discriminate Hn.
      * intros _. exact Hl.
    + split; [rewrite He; cbn; lia|]. split; [|reflexivity]. split.
      * congruence.
      * intros K. congruence.
  - cbn [runCalm] in Hrun.
    destruct (calmStep P u0 e) as [u1|] eqn:Hs; [|discriminate].
    destruct (IH u1 Hrun (@SingleFlight_step P u0 e u1 S0 Hs)) as (A & B & C & D).
    split; [exact A|]. split; [exact B|]. split; [exact C|].
    cbn [run]. unfold calmStep in Hs.
    destruct (isClear e && isLoading (app u0)); [discriminate|].
    rewrite Hs. exact D.
Qed.

Lemma X11_witness_extraction_settles :
  exists u,
    runCalm (Sample.answering (Sample.widgetInvoice (Some 1.5%float) 21.5%float))
      [TypeKey "key-123"; ClickSaveKey; ChooseFile [Sample.png]; ClickDigitize;
       Settle 0 (Returns (Sample.widgetInvoice (Some 1.5%float) 21.5%float)); ClickClear]
      (mount (fun _ => false) []) = Some u /\
    SingleFlight u.
Proof.
  eexists. split; [vm_compute; reflexivity|].
  refine (proj1 (@X11_single_flight_without_clear
                   (Sample.answering (Sample.widgetInvoice (Some 1.5%float) 21.5%float))
                   (fun _ => false) []
                   [TypeKey "key-123"; ClickSaveKey; ChooseFile [Sample.png]; ClickDigitize;
                    Settle 0 (Returns (Sample.widgetInvoice (Some 1.5%float) 21.5%float));
                    ClickClear]
                   _ _)).
  vm_compute. reflexivity.
Defined.

(** ** Clear does not cancel *)

(** X12.  Clear while a call is in flight does not cancel it.  When the
    call then settles with a result, the result is stored and the data view
    is rendered although no file is selected any more and the upload area
    is shown. *)
Theorem X12_result_after_clear_is_shown
    (P : Platform) (u : Ui) (file : File) (call : Call) (d : InvoiceData) :
  imageFile (app u) = Some file ->
  inFlight u = [call] ->
  vendorName d <> sentinelVendor ->
  exists u' p,
    run P [ClickClear; Settle 0 (Returns d)] u = Some u' /\
    imageFile (app u') = None /\
    leftPane (app u') = UploadPane /\
    extractedData (app u') = Some d /\
    resultPanel P (app u') = Returns (DataView p) /\
    panelVendor p = vendorName d /\
    inFlight u' = [].
Proof.
  intros Hf Hc Hv.
  cbn [run step]. unfold clearShown. rewrite Hf.
  cbn [withApp app inFlight keyManager storage]. rewrite Hc. cbn [nth_error removeNth].
  eexists _, _. split; [reflexivity|].
  cbn [app inFlight settleDigitize].
  rewrite (onData_result P d _ (not_sentinel d Hv)).
  unfold resultPanel, ExtractedDataDisplay, leftPane.
  cbn [isLoading error extractedData discrepancyWarning aiNote imageFile cameraActive
       handleReset setImageFile setIsLoading setDiscrepancyWarning setAiNote
       setExtractedData setError setCameraActive].
  rewrite Intl_NumberFormat_safe.
  repeat split.
Qed.

Lemma X12_witness_late_result :
  exists u' p,
    run (Sample.answering (Sample.widgetInvoice (Some 1.5%float) 21.5%float))
        [ClickClear; Settle 0 (Returns (Sample.widgetInvoice (Some 1.5%float) 21.5%float))]
        (mkUi (beginDigitize Sample.ready) (mkKeyManager "key-123" false false) []
              [(Sample.png, "key-123", "gemini-2.5-flash")])
    = Some u' /\
    imageFile (app u') = None /\
    resultPanel (Sample.answering (Sample.widgetInvoice (Some 1.5%float) 21.5%float)) (app u')
    = Returns (DataView p).
Proof.
  destruct (@X12_result_after_clear_is_shown
              (Sample.answering (Sample.widgetInvoice (Some 1.5%float) 21.5%float))
              (mkUi (beginDigitize Sample.ready) (mkKeyManager "key-123" false false) []
                    [(Sample.png, "key-123", "gemini-2.5-flash")])
              Sample.png (Sample.png, "key-123", "gemini-2.5-flash")
              (Sample.widgetInvoice (Some 1.5%float) 21.5%float))
    as (u' & p & Hrun & Hf & _ & _ & Hview & _).
  - reflexivity.
  - reflexivity.
  - discriminate.
  - exists u', p. split; [exact Hrun|]. split; [exact Hf|exact Hview].
Defined.

(** X13.  After Clear during a call, a new file can be chosen and a second
    call started while the first is still in flight: two calls are then in
    flight at once, the later one for the new file. *)
Theorem X13_second_call_after_clear
    (P : Platform) (u : Ui) (file file2 : File) (call : Call) :
  imageFile (app u) = Some file ->
  Str.truthy (apiKey (app u)) = true ->
  inFlight u = [call] ->
  exists u',
    run P [ClickClear; ChooseFile [file2]; ClickDigitize] u = Some u' /\
    inFlight u' = [call; (file2, apiKey (app u), selectedModel (app u))] /\
    isLoading (app u') = true /\
    imageFile (app u') = Some file2.
Proof.
  intros Hf Hk Hc.
  cbn [run step]. unfold clearShown. rewrite Hf.
  cbn [withApp app inFlight keyManager storage isUploadPane leftPane handleReset
       setImageFile setExtractedData setError setIsLoading setCameraActive
       setDiscrepancyWarning setAiNote imageFile cameraActive isLoading andb negb
       handleFileChange hd_error selectIfAny].
  unfold digitizeDisabled, startDigitize.
  cbn [app withApp handleFileSelect setImageFile setExtractedData setError
       setDiscrepancyWarning setAiNote imageFile isLoading apiKey orb].
  change (apiKey (handleReset (app u))) with (apiKey (app u)).
  change (isLoading (handleReset (app u))) with false.
  rewrite Hk. cbn [negb orb]. rewrite Hc.
  eexists. split; [reflexivity|]. repeat split.
Qed.

Lemma X13_witness_two_in_flight :
  exists u',
    run (Sample.scripted (Returns None) (Returns JNull))
        [ClickClear; ChooseFile [Sample.png]; ClickDigitize]
        (mkUi (beginDigitize Sample.ready) (mkKeyManager "key-123" false false) []
              [(Sample.png, "key-123", "gemini-2.5-flash")])
    = Some u' /\
    length (inFlight u') = 2%nat.
Proof.
  destruct (@X13_second_call_after_clear
              (Sample.scripted (Returns None) (Returns JNull))
              (mkUi (beginDigitize Sample.ready) (mkKeyManager "key-123" false false) []
                    [(Sample.png, "key-123", "gemini-2.5-flash")])
              Sample.png Sample.png (Sample.png, "key-123", "gemini-2.5-flash")
              eq_refl eq_refl eq_refl)
    as (u' & Hrun & Hin & _).
  exists u'. split; [exact Hrun|]. rewrite Hin. reflexivity.
Defined.

(** The page model agrees with the handler run in one go: from a page with
    the button enabled and nothing in flight, [ClickDigitize] then [Settle]
    with what [digitizeInvoice] gave leaves the state [handleDigitize] ends
    in, with nothing in flight. *)
Lemma page_agrees_with_handleDigitize
    (P : Platform) (u : Ui) (file : File) (events : list Event)
    (result : Outcome JsonValue) (typed : Outcome InvoiceData) :
  digitizeDisabled (app u) = false ->
  inFlight u = [] ->
  imageFile (app u) = Some file ->
  digitizeInvoice P file (apiKey (app u)) (selectedModel (app u)) = (events, result) ->
  typedResult result = Some typed ->
  exists u' log,
    run P [ClickDigitize; Settle 0 typed] u = Some u' /\
    handleDigitize P (app u) = Finished (app u') log /\
    inFlight u' = [] /\
    storage u' = storage u /\
    keyManager u' = keyManager u.
Proof.
  intros Hd Hin Hf Hcall Ht.
  destruct (digitizeDisabled_false _ Hd) as (file' & Hf' & _ & Hk).
  assert (file' = file) as -> by congruence.
  cbn [run step]. rewrite Hd. unfold startDigitize. rewrite Hf, Hk. cbn [negb].
  cbn [app inFlight keyManager storage]. rewrite Hin. cbn [app nth_error removeNth].
  eexists _, _. split; [reflexivity|]. cbn [app inFlight storage keyManager].
  split; [|repeat split].
  unfold handleDigitize. rewrite Hf, Hk, Hcall. cbn [negb].
  destruct result as [v|err]; cbn [typedResult] in Ht.
  - destruct (asInvoiceData v) as [d|]; [|discriminate].
    injection Ht as <-. reflexivity.
  - injection Ht as <-. reflexivity.
Qed.

(** ** The key, once saved *)

Lemma apiKey_selectIfAny f u : apiKey (app (selectIfAny f u)) = apiKey (app u).
Proof. destruct f; reflexivity. Qed.

Lemma apiKey_step P u e u' :
  step P u e = Some u' ->
  (isSaveKey e = false -> apiKey (app u') = apiKey (app u)) /\
  (isSaveKey e = true ->
   apiKey (app u') = localApiKey (keyManager u) /\ Str.truthy (apiKey (app u')) = true).
Proof.
  intros Hs. destruct e; cbn [step] in Hs; cbn [isSaveKey];
    (split; intros Hx; try discriminate Hx; clear Hx).
  - destruct (isUploadPane (app u) && negb (isLoading (app u))); [|discriminate].
    injection Hs as <-. apply apiKey_selectIfAny.
  - destruct (isUploadPane (app u)); [|discriminate].
    injection Hs as <-. apply apiKey_selectIfAny.
  - destruct (isUploadPane (app u) && negb (isLoading (app u))); [|discriminate].
    injection Hs as <-. reflexivity.
  - injection Hs as <-. reflexivity.
  - destruct (isCameraPane (app u)); [|discriminate]. injection Hs as <-. reflexivity.
  - destruct (digitizeDisabled (app u)); [discriminate|].
    unfold startDigitize in Hs.
    destruct (imageFile (app u)); [destruct (negb (Str.truthy (apiKey (app u))))|];
      injection Hs as <-; reflexivity.
  - destruct (nth_error (inFlight u) i); [|discriminate]. injection Hs as <-.
    apply settleDigitize_cells.
  - destruct (clearShown (app u)); [|discriminate]. injection Hs as <-. reflexivity.
  - destruct (keySummaryShown (keyManager u) (app u)); [discriminate|].
    injection Hs as <-. reflexivity.
  - destruct (keySummaryShown (keyManager u) (app u)); [discriminate|].
    destruct (saveDisabled (keyManager u)) eqn:Hd; [discriminate|].
    cbn [orb handleSave] in Hs. injection Hs as <-.
    split; [reflexivity|]. cbn [app setApiKey apiKey].
    unfold saveDisabled in Hd. apply negb_false_iff in Hd. exact Hd.
  - destruct (keySummaryShown (keyManager u) (app u)); [|discriminate].
    injection Hs as <-. reflexivity.
  - injection Hs as <-. reflexivity.
  - destruct (getItem models m); [|discriminate].
    cbn [handleModelChange] in Hs. injection Hs as <-. reflexivity.
Qed.

(** X15.  The page offers no way to erase a key: once the key in use is
    not empty it stays not empty whatever happens, and it changes only when
    Save is clicked. *)
Theorem X15_key_is_never_erased
    (P : Platform) (events : list UiEvent) (u u' : Ui) :
  run P events u = Some u' ->
  Str.truthy (apiKey (app u)) = true ->
  Str.truthy (apiKey (app u')) = true /\
  (existsb isSaveKey events = false -> apiKey (app u') = apiKey (app u)).
Proof.
  revert u. induction events as [|e events IH]; intros u Hrun Hk.
  - injection Hrun as <-. split; [exact Hk|reflexivity].
  - cbn [run] in Hrun. destruct (step P u e) as [u1|] eqn:Hs; [|discriminate].
    destruct (apiKey_step P u e Hs) as (Hsame & Hsave).
    assert (Str.truthy (apiKey (app u1)) = true) as Hk1.
    { destruct (isSaveKey e); [apply Hsave; reflexivity|].
      rewrite Hsame by reflexivity. exact Hk. }
    destruct (IH u1 Hrun Hk1) as (A & B). split; [exact A|].
    cbn [existsb]. intros H. apply orb_false_iff in H. destruct H as (He & Hrest).
    rewrite (B Hrest). apply Hsame. exact He.
Qed.

Lemma X15_witness_clear_keeps_key :
  exists u',
    run (Sample.scripted (Returns None) (Returns JNull)) [ClickClear]
        (mkUi Sample.ready (mkKeyManager "key-123" false false) [] []) = Some u' /\
    apiKey (app u') = "key-123".
Proof.
  eexists. split; [vm_compute; reflexivity|].
  refine (proj2 (@X15_key_is_never_erased
                   (Sample.scripted (Returns None) (Returns JNull)) [ClickClear]
                   (mkUi Sample.ready (mkKeyManager "key-123" false false) [] []) _ _ _) _).
  - vm_compute. reflexivity.
  - reflexivity.
  - reflexivity.
Defined.

(** ** The client's traffic *)

(** X16.  [digitizeInvoice] never retries and never logs a good answer:
    it makes exactly one model call when the key is not empty and none
    otherwise, and it writes to the console only in the one case where it
    throws its parse error, two lines then. *)
Theorem X16_client_calls_once_and_logs_only_parse_failures
    (P : Platform) (file : File) (key model : string) :
  let events := fst (digitizeInvoice P file key model) in
  let result := snd (digitizeInvoice P file key model) in
  length (filter isOutbound events) = (if Str.truthy key then 1 else 0)%nat /\
  (filter isConsoleError events = [] \/
   (length (filter isConsoleError events) = 2%nat /\
    result = Throws (ErrorInstance parseErrorMessage))) /\
  (forall v, result = Returns v -> events = [GenerateContent (mkRequest model (fileToGenerativePart file))]).
Proof.
  unfold digitizeInvoice. destruct (Str.truthy key); cbn [negb].
  - destruct (generateContent P _) as [text|e].
    + destruct (parseResponse P text) as [v|e]; cbn.
      * split; [reflexivity|]. split; [left; reflexivity|reflexivity].
      * split; [reflexivity|]. split; [right; split; reflexivity|discriminate].
    + cbn. split; [reflexivity|]. split; [left; reflexivity|discriminate].
  - cbn. split; [reflexivity|]. split; [left; reflexivity|discriminate].
Qed.
